(** * organizer.py: the file organizer of the social-media data collector

    A shallow embedding of [src/python/organizer.py] and the properties of
    its event pipeline ([DatasetFileHandler.on_created] and
    [DatasetFileHandler.process_file]).

    Modelling conventions.
    - A Python [str] is a [string]; one [ascii] stands for one code point
      below 256.  The filename grammar of the program is ASCII, and on this
      range [str.lower] is the total function [lower] below.
    - [os.path] is [posixpath], the module Python selects on Linux and macOS.
    - Integers are [Z]; indices returned by [str.rfind] are [Z] as well, with
      [-1] for "not found".
    - Effects (the file system, the clock, standard output) are threaded
      through a state-and-exception monad; the operating system is an
      interface ([OS]) with one concrete instance, a finite map from paths
      to nodes. *)

From Stdlib Require Import ZArith Ascii String DecimalString DecimalPos DecimalZ List Lia.
From stdpp Require Import base option list strings gmap.

Local Open Scope Z_scope.

(** ** Python strings *)

Module Py.

(** [c.lower()] for one code point below 256: the ASCII capitals and the
    Latin-1 capitals U+00C0..U+00DE (U+00D7, the multiplication sign, has
    no case) move up by 32. *)
Definition lower_char (c : ascii) : ascii :=
  let n := N_of_ascii c in
  if ((65 <=? n) && (n <=? 90))%N
     || ((192 <=? n) && (n <=? 222) && negb (n =? 215))%N
  then ascii_of_N (n + 32) else c.

(** [s.lower()] *)
Fixpoint lower (s : string) : string :=
  match s with
  | EmptyString => EmptyString
  | String c s' => String (lower_char c) (lower s')
  end.

(** [s.split(sep)] for a one-character separator: never the empty list. *)
Fixpoint split (sep : ascii) (s : string) : list string :=
  match s with
  | EmptyString => [EmptyString]
  | String c s' =>
      if Ascii.eqb c sep then EmptyString :: split sep s'
      else match split sep s' with
           | [] => [String c EmptyString]
           | p :: ps => String c p :: ps
           end
  end.

(** [s.rfind(c)] scans left to right and keeps the last hit; [i] is the
    index of the head of [s], [last] the best index so far. *)
Fixpoint rfind_from (c : ascii) (s : string) (i last : Z) : Z :=
  match s with
  | EmptyString => last
  | String d s' => rfind_from c s' (i + 1) (if Ascii.eqb d c then i else last)
  end.

Definition rfind (c : ascii) (s : string) : Z := rfind_from c s 0 (-1).

(** [s[:n]] and [s[n:]] for an index [n >= 0]. *)
Fixpoint take (n : nat) (s : string) : string :=
  match n, s with
  | O, _ => EmptyString
  | S _, EmptyString => EmptyString
  | S n', String c s' => String c (take n' s')
  end.

Fixpoint drop (n : nat) (s : string) : string :=
  match n, s with
  | O, _ => s
  | S _, EmptyString => EmptyString
  | S n', String _ s' => drop n' s'
  end.

Definition slice_to (s : string) (i : Z) : string := take (Z.to_nat i) s.
Definition slice_from (s : string) (i : Z) : string := drop (Z.to_nat i) s.
(** [s[i:j]] for [0 <= i] *)
Definition slice (s : string) (i j : Z) : string :=
  take (Z.to_nat (j - i)) (drop (Z.to_nat i) s).

(** [s.startswith(p)] *)
Fixpoint startswith (s p : string) : bool :=
  match p, s with
  | EmptyString, _ => true
  | String _ _, EmptyString => false
  | String a p', String b s' => Ascii.eqb a b && startswith s' p'
  end.

(** [s.endswith(sep)] for a one-character [sep] *)
Fixpoint endswith_char (s : string) (c : ascii) : bool :=
  match s with
  | EmptyString => false
  | String d EmptyString => Ascii.eqb d c
  | String _ s' => endswith_char s' c
  end.

(** [p in s] for strings: [p] starts at some position of [s]. *)
Fixpoint contains (s p : string) : bool :=
  startswith s p ||
  match s with
  | EmptyString => false
  | String _ s' => contains s' p
  end.

(** [all(c == d for c in s)] *)
Fixpoint all_char (d : ascii) (s : string) : bool :=
  match s with
  | EmptyString => true
  | String c s' => Ascii.eqb c d && all_char d s'
  end.

(** [s.count(c)] for one character *)
Fixpoint count (c : ascii) (s : string) : nat :=
  match s with
  | EmptyString => O
  | String d s' => ((if Ascii.eqb d c then 1 else 0) + count c s')%nat
  end.

(** [str(n)] for an [int]: decimal digits, a leading minus sign for a
    negative number. *)
Definition str_of_int (n : Z) : string := NilZero.string_of_int (Z.to_int n).

(** [x in xs] for a list of strings *)
Definition In_list (x : string) (xs : list string) : bool :=
  existsb (String.eqb x) xs.

End Py.

(** ** [os.path] (posixpath) *)

Module os_path.

Definition sep : ascii := "/"%char.
Definition extsep : ascii := "."%char.

(** One step of the loop of [join(a, *p)]. *)
Definition join_step (path b : string) : string :=
  if Py.startswith b (String sep "") || String.eqb path "" then b
  else if Py.endswith_char path sep then path +:+ b
  else path +:+ String sep "" +:+ b.

(** [os.path.join(a, *p)] *)
Definition join (a : string) (p : list string) : string :=
  fold_left join_step p a.

(** [os.path.basename(p)] *)
Definition basename (p : string) : string :=
  let i := Py.rfind sep p + 1 in
  Py.slice_from p i.

(** [head.rstrip(sep)] *)
Fixpoint rstrip (c : ascii) (s : string) : string :=
  match s with
  | EmptyString => EmptyString
  | String d s' =>
      match rstrip c s' with
      | EmptyString => if Ascii.eqb d c then EmptyString else String d EmptyString
      | r => String d r
      end
  end.

(** [os.path.dirname(p)] *)
Definition dirname (p : string) : string :=
  let i := Py.rfind sep p + 1 in
  let head := Py.slice_to p i in
  if negb (String.eqb head "") && negb (Py.all_char sep head)
  then rstrip sep head else head.

(** [os.path.splitext(p)], that is [genericpath._splitext(p, '/', None, '.')]:
    the extension starts at the last dot of the last component, unless only
    dots precede it there. *)
Definition splitext (p : string) : string * string :=
  let sepIndex := Py.rfind sep p in
  let dotIndex := Py.rfind extsep p in
  if (sepIndex <? dotIndex)
     && negb (Py.all_char extsep (Py.slice p (sepIndex + 1) dotIndex))
  then (Py.slice_to p dotIndex, Py.slice_from p dotIndex)
  else (p, Py.slice_to p 0).

End os_path.

(** ** Configuration (module-level constants of organizer.py) *)

Definition DEST_BASE : string := "C:/Users/offrk/Desktop/dataset".

Definition PLATFORMS : list string :=
  [ "twitter"; "instagram"; "facebook"; "whatsapp";
    "linkedin"; "reddit"; "discord"; "threads";
    "youtube"; "snapchat" ].

Definition IMAGE_EXT : string := ".jpg".
Definition LABEL_EXT : string := ".txt".

(** ** Effects: exceptions, the world, and the monad *)

(** A Python exception: its class name and [str(e)]. *)
Record Exception := mkException { exc_class : string; exc_str : string }.

(** The calls the program makes to the operating system, in order. *)
Inductive Syscall :=
| SysSleep (ms : Z)                         (* time.sleep *)
| SysExists (path : string)                 (* os.path.exists *)
| SysMakedirs (path : string)               (* os.makedirs(path, exist_ok=True) *)
| SysMove (src dst : string).               (* shutil.move *)

(** The operating system as the program sees it.  A failing call returns its
    exception together with the state it leaves behind. *)
Class OS (FS : Type) := {
  os_exists : string -> FS -> bool;
  os_makedirs : string -> FS -> option Exception * FS;
  os_move : string -> string -> FS -> option Exception * FS;
  (** what the other processes do to the file system during a sleep *)
  os_settle : FS -> FS;
}.

(** The state of one run: file system, clock in milliseconds since the epoch,
    the lines printed so far, and the system calls made so far. *)
Record World (FS : Type) := mkWorld {
  fs : FS;
  now : Z;
  stdout : list string;
  syscalls : list Syscall;
}.
Arguments mkWorld {FS}.
Arguments fs {FS}.
Arguments now {FS}.
Arguments stdout {FS}.
Arguments syscalls {FS}.

Inductive Outcome (W A : Type) :=
| Returned (a : A) (w : W)
| Raised (e : Exception) (w : W).
Arguments Returned {W A}.
Arguments Raised {W A}.

Definition M (W A : Type) : Type := W -> Outcome W A.

#[global] Instance M_ret {W} : MRet (M W) := fun A a w => Returned a w.
#[global] Instance M_bind {W} : MBind (M W) := fun A B k m w =>
  match m w with
  | Returned a w' => k a w'
  | Raised e w' => Raised e w'
  end.

(** [try: m  except Exception as e: handler(e)] *)
Definition try_except {W A} (m : M W A) (handler : Exception -> M W A) : M W A :=
  fun w =>
    match m w with
    | Returned a w' => Returned a w'
    | Raised e w' => handler e w'
    end.

Definition final {W A} (o : Outcome W A) : W :=
  match o with Returned _ w => w | Raised _ w => w end.

Section Primitives.
Context {FS : Type} `{!OS FS}.

Definition called (c : Syscall) (w : World FS) : World FS :=
  mkWorld (fs w) (now w) (stdout w) (syscalls w ++ [c]).

Definition set_fs (f : FS) (w : World FS) : World FS :=
  mkWorld f (now w) (stdout w) (syscalls w).

Definition lift_call (r : option Exception * FS) (w : World FS)
  : Outcome (World FS) unit :=
  match r.1 with
  | None => Returned tt (set_fs r.2 w)
  | Some e => Raised e (set_fs r.2 w)
  end.

(** [print(line)]; the pictograph that opens each message of the source lies
    outside the code-point range of the model and is left out.  Writing to
    standard output is taken not to fail. *)
Definition print (line : string) : M (World FS) unit := fun w =>
  Returned tt (mkWorld (fs w) (now w) (stdout w ++ [line]) (syscalls w)).

(** [time.sleep(ms / 1000)] *)
Definition time_sleep (ms : Z) : M (World FS) unit := fun w =>
  Returned tt (mkWorld (os_settle (fs w)) (now w + ms) (stdout w)
                       (syscalls w ++ [SysSleep ms])).

(** [int(time.time())]: whole seconds, truncated towards zero. *)
Definition int_time_time : M (World FS) Z := fun w =>
  Returned (Z.quot (now w) 1000) w.

(** [os.path.exists(path)] *)
Definition path_exists (path : string) : M (World FS) bool := fun w =>
  Returned (os_exists path (fs w)) (called (SysExists path) w).

(** [os.makedirs(path, exist_ok=True)] *)
Definition makedirs (path : string) : M (World FS) unit := fun w =>
  lift_call (os_makedirs path (fs w)) (called (SysMakedirs path) w).

(** [shutil.move(src, dst)] *)
Definition shutil_move (src dst : string) : M (World FS) unit := fun w =>
  lift_call (os_move src dst (fs w)) (called (SysMove src dst) w).

End Primitives.

(** ** The handler class [DatasetFileHandler] *)

(** A watchdog [FileSystemEvent]. *)
Record FileSystemEvent := mkEvent { is_directory : bool; src_path : string }.

Section DatasetFileHandler.
Context {FS : Type} `{!OS FS}.

(** The body of the [try] block of [process_file]. *)
Definition process_file_try (filepath filename : string) : M (World FS) unit :=
  let parts := Py.split "_" filename in
  if (length parts <? 3)%nat then
    print ("Invalid filename format: " +:+ filename)
  else
  let platform := Py.lower (hd "" parts) in
  if negb (Py.In_list platform PLATFORMS) then
    print ("Unknown platform: " +:+ platform)
  else
  let extension := Py.lower (os_path.splitext filename).2 in
  let dest_folder :=
    if String.eqb extension IMAGE_EXT then
      Some (os_path.join DEST_BASE [platform; "images"])
    else if String.eqb extension LABEL_EXT then
      Some (os_path.join DEST_BASE [platform; "labels"])
    else None in
  match dest_folder with
  | None => print ("Unknown file extension: " +:+ extension)
  | Some dest_folder =>
      makedirs dest_folder ;;
      let dest_path := os_path.join dest_folder [filename] in
      collision ← path_exists dest_path ;
      dest_path ←
        (if collision : bool then
           print ("File already exists: " +:+ dest_path) ;;
           let '(base, ext) := os_path.splitext filename in
           t ← int_time_time ;
           let new_filename := base +:+ "_dup_" +:+ Py.str_of_int t +:+ ext in
           mret (os_path.join dest_folder [new_filename])
         else mret dest_path) ;
      shutil_move filepath dest_path ;;
      let file_type := if String.eqb extension IMAGE_EXT then "Image" else "Label" in
      print (file_type +:+ " moved: " +:+ platform +:+ "/" +:+ filename)
  end.

(** [process_file(self, filepath, filename)] *)
Definition process_file (filepath filename : string) : M (World FS) unit :=
  try_except (process_file_try filepath filename)
    (fun e => print ("Error processing " +:+ filename +:+ ": " +:+ exc_str e)).

(** [on_created(self, event)] *)
Definition on_created (event : FileSystemEvent) : M (World FS) unit :=
  if is_directory event then mret tt
  else
  let filepath := src_path event in
  let filename := os_path.basename filepath in
  time_sleep 500 ;;
  still_there ← path_exists filepath ;
  if negb still_there then mret tt
  else process_file filepath filename.

(** The observer thread of watchdog: it hands the queued events to the
    handler one after the other; an exception that escapes the handler
    ends the thread, and the remaining events are never dispatched. *)
Fixpoint dispatch_events (events : list FileSystemEvent) : M (World FS) unit :=
  match events with
  | [] => mret tt
  | event :: rest => on_created event ;; dispatch_events rest
  end.

End DatasetFileHandler.

(** ** A concrete operating system: paths mapped to nodes

    Paths are compared as strings (no normalisation, no links); the current
    directory and the root always exist. *)

Inductive node :=
| File (content : string)
| Dir.

#[global] Instance node_eq_dec : EqDecision node.
Proof. solve_decision. Defined.

Module PosixFS.

Abbreviation t := (gmap string node).

Definition exists_ (path : string) (m : t) : bool :=
  match m !! path with Some _ => true | None => false end.

Definition isdir (path : string) (m : t) : bool :=
  match m !! path with Some Dir => true | _ => false end.

Definition FileNotFoundError (path : string) : Exception :=
  mkException "FileNotFoundError"
    ("[Errno 2] No such file or directory: '" +:+ path +:+ "'").
Definition FileExistsError (path : string) : Exception :=
  mkException "FileExistsError" ("[Errno 17] File exists: '" +:+ path +:+ "'").
Definition NotADirectoryError (path : string) : Exception :=
  mkException "NotADirectoryError" ("[Errno 20] Not a directory: '" +:+ path +:+ "'").
Definition IsADirectoryError (path : string) : Exception :=
  mkException "IsADirectoryError" ("[Errno 21] Is a directory: '" +:+ path +:+ "'").
Definition shutil_Error (msg : string) : Exception :=
  mkException "Error" msg.

(** The directories above [path], outermost first: the prefix before each
    separator, unless it is empty or ends in a separator itself. *)
Fixpoint ancestors_from (seen rest : string) : list string :=
  match rest with
  | EmptyString => []
  | String c rest' =>
      (if Ascii.eqb c os_path.sep && negb (String.eqb seen "")
          && negb (Py.endswith_char seen os_path.sep)
       then [seen] else [])
      ++ ancestors_from (seen +:+ String c "") rest'
  end.
Definition ancestors (path : string) : list string := ancestors_from "" path.

(** [mkdir] each directory of the list that does not exist yet; the leaf is
    the last one. *)
Fixpoint mkdir_each (leaf : string) (dirs : list string) (m : t)
  : option Exception * t :=
  match dirs with
  | [] => (None, m)
  | d :: ds =>
      match m !! d with
      | Some Dir => mkdir_each leaf ds m
      | Some (File _) =>
          (Some (if String.eqb d leaf then FileExistsError leaf
                 else NotADirectoryError leaf), m)
      | None => mkdir_each leaf ds (<[d := Dir]> m)
      end
  end.

(** [os.makedirs(path, exist_ok=True)] *)
Definition makedirs (path : string) (m : t) : option Exception * t :=
  if String.eqb path "" then (Some (FileNotFoundError path), m)
  else mkdir_each path (ancestors path ++ [path]) m.

(** The directory that is to hold [path] is there. *)
Definition parent_ok (path : string) (m : t) : bool :=
  let d := os_path.dirname path in
  String.eqb d "" || Py.all_char os_path.sep d || isdir d m.

(** Where the entry [k] goes when the directory [src] becomes [dst]. *)
Definition rebase (src dst k : string) : string :=
  if String.eqb k src || Py.startswith k (src +:+ "/")
  then dst +:+ Py.drop (String.length src) k else k.

Definition rename_tree (src dst : string) (m : t) : t :=
  list_to_map (prod_map (rebase src dst) id <$> map_to_list m).

(** [os.rename(src, dst)] with the copy-and-delete fallback of
    [shutil.move]: a regular file replaces a regular file at [dst]. *)
Definition rename (src dst : string) (m : t) : option Exception * t :=
  match m !! src with
  | None => (Some (FileNotFoundError src), m)
  | Some (File content) =>
      if negb (parent_ok dst m) then (Some (FileNotFoundError dst), m)
      else match m !! dst with
           | Some Dir => (Some (IsADirectoryError dst), m)
           | _ => (None, <[dst := File content]> (delete src m))
           end
  | Some Dir =>
      if exists_ dst m then (Some (FileExistsError dst), m)
      else if Py.startswith dst (src +:+ "/") then
        (Some (shutil_Error ("Cannot move a directory '" +:+ src
                             +:+ "' into itself '" +:+ dst +:+ "'.")), m)
      else if negb (parent_ok dst m) then (Some (FileNotFoundError dst), m)
      else (None, rename_tree src dst m)
  end.

(** [shutil.move(src, dst)] *)
Definition move (src dst : string) (m : t) : option Exception * t :=
  if isdir dst m then
    if String.eqb src dst then (None, m)
    else
      let real_dst :=
        os_path.join dst [os_path.basename (os_path.rstrip os_path.sep src)] in
      if exists_ real_dst m then
        (Some (shutil_Error ("Destination path '" +:+ real_dst
                             +:+ "' already exists")), m)
      else rename src real_dst m
  else rename src dst m.

(** The operating system, given what the other processes do to the file
    system while the handler sleeps. *)
Definition os (interference : t -> t) : OS t :=
  {| os_exists := exists_;
     os_makedirs := makedirs;
     os_move := move;
     os_settle := interference |}.

(** No other process touches the file system. *)
Definition quiet : OS t := os id.

End PosixFS.

(** ** Vocabulary of the statements

    The quantities [process_file] computes from the filename alone, named as
    in its body. *)

(** [parts = filename.split('_')] *)
Definition parts_of (filename : string) : list string := Py.split "_" filename.

(** [platform = parts[0].lower()] *)
Definition platform_of (filename : string) : string :=
  Py.lower (hd "" (parts_of filename)).

(** [extension = os.path.splitext(filename)[1].lower()] *)
Definition extension_of (filename : string) : string :=
  Py.lower (os_path.splitext filename).2.

(** The sub-directory the extension selects: ['images'], ['labels'], or none. *)
Definition subfolder_of (extension : string) : option string :=
  if String.eqb extension IMAGE_EXT then Some "images"
  else if String.eqb extension LABEL_EXT then Some "labels"
  else None.

(** [file_type = "Image" if extension == IMAGE_EXT else "Label"] *)
Definition file_type_of (extension : string) : string :=
  if String.eqb extension IMAGE_EXT then "Image" else "Label".

(** The filename passes the three tests of lines 92-116 and is sent to the
    sub-directory [sub]. *)
Definition accepted (filename sub : string) : Prop :=
  (3 <= length (parts_of filename))%nat
  /\ Py.In_list (platform_of filename) PLATFORMS = true
  /\ subfolder_of (extension_of filename) = Some sub.

(** [new_filename = f"{base}_dup_{t}{ext}"] with [base, ext = splitext(filename)] *)
Definition dup_filename (filename : string) (t : Z) : string :=
  let '(base, ext) := os_path.splitext filename in
  base +:+ "_dup_" +:+ Py.str_of_int t +:+ ext.

(** The tail of a path after its last separator. *)
Definition last_component (b : string) : string :=
  Py.drop (Z.to_nat (Py.rfind os_path.sep b + 1)) b.

(** The lines the program prints. *)
Definition line_invalid (filename : string) : string :=
  "Invalid filename format: " +:+ filename.
Definition line_unknown_platform (platform : string) : string :=
  "Unknown platform: " +:+ platform.
Definition line_unknown_extension (extension : string) : string :=
  "Unknown file extension: " +:+ extension.
Definition line_exists (dest_path : string) : string :=
  "File already exists: " +:+ dest_path.
Definition line_moved (filename : string) : string :=
  file_type_of (extension_of filename) +:+ " moved: "
    +:+ platform_of filename +:+ "/" +:+ filename.
Definition line_error (filename : string) (e : Exception) : string :=
  "Error processing " +:+ filename +:+ ": " +:+ exc_str e.

(** The run of [process_file] ended with its success message. *)
Definition placed {FS} `{!OS FS} (filepath filename : string) (w : World FS) : Prop :=
  exists lines,
    stdout (final (process_file filepath filename w))
    = stdout w ++ lines ++ [line_moved filename].

(** The world an accepted file leaves behind, read off the answers of the
    operating system (used to organise the proofs; see [process_file_accepted]). *)
Definition accepted_outcome {FS} `{!OS FS}
    (filepath filename sub : string) (w : World FS) : World FS :=
  let dest_folder := os_path.join DEST_BASE [platform_of filename; sub] in
  match os_makedirs dest_folder (fs w) with
  | (Some e, f1) =>
      mkWorld f1 (now w) (stdout w ++ [line_error filename e])
              (syscalls w ++ [SysMakedirs dest_folder])
  | (None, f1) =>
      let naive := os_path.join dest_folder [filename] in
      let collision := os_exists naive f1 in
      let target :=
        if collision
        then os_path.join dest_folder [dup_filename filename (Z.quot (now w) 1000)]
        else naive in
      let out := stdout w ++ (if collision then [line_exists naive] else []) in
      let calls :=
        syscalls w ++ [SysMakedirs dest_folder; SysExists naive; SysMove filepath target] in
      match os_move filepath target f1 with
      | (None, f2) => mkWorld f2 (now w) (out ++ [line_moved filename]) calls
      | (Some e, f2) => mkWorld f2 (now w) (out ++ [line_error filename e]) calls
      end
  end.

(** ** Sample events and worlds *)

Module Samples.

Definition staging : string := "/home/offrk/Downloads/dataset_temp".

Definition arrival (filename : string) : FileSystemEvent :=
  mkEvent false (staging +:+ "/" +:+ filename).

(** A world whose staging directory holds one file. *)
Definition world_with (filename content : string) : World PosixFS.t :=
  mkWorld {[ staging +:+ "/" +:+ filename := File content ]}
          1730912345600 [] [].

(** The staging directory holds [reddit_1_1.txt] a third time: the first
    copy sits at the plain destination, the second at the disambiguated
    destination of the current second. *)
Definition world_twice : World PosixFS.t :=
  mkWorld
    (<[ staging +:+ "/reddit_1_1.txt" := File "third" ]>
     (<[ "C:/Users/offrk/Desktop/dataset/reddit/labels/reddit_1_1.txt" := File "first" ]>
     (<[ "C:/Users/offrk/Desktop/dataset/reddit/labels/reddit_1_1_dup_1730912346.txt"
           := File "second" ]>
     (<[ "C:/Users/offrk/Desktop/dataset/reddit/labels" := Dir ]> ∅))))
    1730912345600 [] [].

(** [reddit_1_1.txt] arrives a second time: the first copy sits at the
    plain destination. *)
Definition world_once : World PosixFS.t :=
  mkWorld
    (<[ staging +:+ "/reddit_1_1.txt" := File "second" ]>
     (<[ "C:/Users/offrk/Desktop/dataset/reddit/labels/reddit_1_1.txt" := File "first" ]>
     (<[ "C:/Users/offrk/Desktop/dataset/reddit/labels" := Dir ]> ∅)))
    1730912345600 [] [].

(** The destination folder of twitter images is taken by a regular file. *)
Definition world_blocked : World PosixFS.t :=
  mkWorld
    (<[ staging +:+ "/twitter_1_1.jpg" := File "img" ]>
     (<[ "C:/Users/offrk/Desktop/dataset/twitter/images" := File "not a folder" ]> ∅))
    1730912345600 [] [].

(** A destination tree with files for twitter only: two images with the
    extension in lower case, one with a capital extension, and one label. *)
Definition world_collected : World PosixFS.t :=
  mkWorld
    (<[ "C:/Users/offrk/Desktop/dataset/twitter/images" := Dir ]>
     (<[ "C:/Users/offrk/Desktop/dataset/twitter/images/twitter_1_1.jpg" := File "a" ]>
     (<[ "C:/Users/offrk/Desktop/dataset/twitter/images/twitter_1_1_dup_7.jpg" := File "b" ]>
     (<[ "C:/Users/offrk/Desktop/dataset/twitter/images/twitter_1_2.JPG" := File "c" ]>
     (<[ "C:/Users/offrk/Desktop/dataset/twitter/labels" := Dir ]>
     (<[ "C:/Users/offrk/Desktop/dataset/twitter/labels/twitter_1_1.txt" := File "d" ]>
      ∅))))))
    1730912345600 [] [].

(** The staging folder holds an image with a capital extension; the folders
    of twitter are in place. *)
Definition world_capital : World PosixFS.t :=
  mkWorld
    (<[ staging +:+ "/twitter_1_2.JPG" := File "c" ]>
     (<[ "C:/Users/offrk/Desktop/dataset/twitter/images" := Dir ]>
     (<[ "C:/Users/offrk/Desktop/dataset/twitter" := Dir ]>
     (<[ "C:/Users/offrk/Desktop/dataset" := Dir ]>
     (<[ "C:/Users/offrk/Desktop" := Dir ]>
     (<[ "C:/Users/offrk" := Dir ]>
     (<[ "C:/Users" := Dir ]>
     (<[ "C:" := Dir ]> ∅))))))))
    1730912345600 [] [].

End Samples.

(** ** The rest of organizer.py: start-up, statistics and [main] *)

(** *** More of Python's strings *)

Module PyText.

(** [s.endswith(suffix)] *)
Definition endswith (s suffix : string) : bool :=
  (String.length suffix <=? String.length s)%nat
  && String.eqb (Py.drop (String.length s - String.length suffix) s) suffix.

(** [c.upper()] for an ASCII character; the program applies [upper] to the
    names of [PLATFORMS] only. *)
Definition upper_char (c : ascii) : ascii :=
  let n := N_of_ascii c in
  if ((97 <=? n) && (n <=? 122))%N then ascii_of_N (n - 32) else c.

(** [s.upper()] *)
Fixpoint upper (s : string) : string :=
  match s with
  | EmptyString => EmptyString
  | String c s' => String (upper_char c) (upper s')
  end.

(** [c * n] for a one-character string [c] *)
Fixpoint repeat_char (c : ascii) (n : nat) : string :=
  match n with
  | O => EmptyString
  | S n' => String c (repeat_char c n')
  end.

(** [format(s, str(width))] for a string: padded with blanks on the right. *)
Definition ljust (s : string) (width : nat) : string :=
  s +:+ repeat_char " " (width - String.length s).

(** [format(n, str(width))] for an integer: padded with blanks on the left. *)
Definition rjust_int (n : Z) (width : nat) : string :=
  let digits := Py.str_of_int n in
  repeat_char " " (width - String.length digits) +:+ digits.

(** ["\n"] *)
Definition newline : string := String "010" EmptyString.

End PyText.

(** *** Configuration, continued *)

(** [WATCH_FOLDER = os.path.expanduser("~/Downloads/dataset_temp")], where
    [home] is the value of the environment variable [HOME]: [expanduser]
    strips the separators that end it and puts it in place of the tilde. *)
Definition WATCH_FOLDER (home : string) : string :=
  os_path.rstrip os_path.sep home +:+ "/Downloads/dataset_temp".

(** *** Listing a directory *)

(** [os.listdir(path)]: the names of the entries of a directory, or the
    exception it raises. *)
Class OSListing (FS : Type) := {
  os_listdir : string -> FS -> Exception + list string;
}.

Section Startup.
Context {FS : Type} `{!OS FS} `{!OSListing FS}.

(** [os.listdir(path)]; it reads the file system and leaves it as it is. *)
Definition listdir (path : string) : M (World FS) (list string) := fun w =>
  match os_listdir path (fs w) with
  | inr names => Returned names w
  | inl e => Raised e w
  end.

(** [for x in xs: body(x)] *)
Fixpoint for_each {A : Type} (xs : list A) (body : A -> M (World FS) unit)
  : M (World FS) unit :=
  match xs with
  | [] => mret tt
  | x :: rest => body x ;; for_each rest body
  end.

(** [for x in xs: acc = body(acc, x)], for a loop that updates local
    variables. *)
Fixpoint for_each_acc {A S : Type} (xs : list A) (acc : S)
    (body : S -> A -> M (World FS) S) : M (World FS) S :=
  match xs with
  | [] => mret acc
  | x :: rest => acc' ← body acc x ; for_each_acc rest acc' body
  end.

(** [setup_folders()]; a pictograph inside a message is left out together
    with the blank that follows it. *)
Definition setup_folders (home : string) : M (World FS) unit :=
  print "Setting up folder structure..." ;;
  makedirs (WATCH_FOLDER home) ;;
  print ("   Watch folder: " +:+ WATCH_FOLDER home) ;;
  for_each PLATFORMS (fun platform =>
    let images_folder := os_path.join DEST_BASE [platform; "images"] in
    let labels_folder := os_path.join DEST_BASE [platform; "labels"] in
    makedirs images_folder ;;
    makedirs labels_folder ;;
    print ("   " +:+ platform +:+ ": images/ and labels/")) ;;
  print ("Folder structure ready!" +:+ PyText.newline).

(** The body of the loop of [print_statistics]; the state is
    [(total_images, total_labels)]. *)
Definition statistics_of_platform (totals : nat * nat) (platform : string)
  : M (World FS) (nat * nat) :=
  let images_folder := os_path.join DEST_BASE [platform; "images"] in
  let labels_folder := os_path.join DEST_BASE [platform; "labels"] in
  images_there ← path_exists images_folder ;
  image_count ←
    (if images_there : bool then
       names ← listdir images_folder ;
       mret (length (List.filter (fun f => PyText.endswith f IMAGE_EXT) names))
     else mret O) ;
  labels_there ← path_exists labels_folder ;
  label_count ←
    (if labels_there : bool then
       names ← listdir labels_folder ;
       mret (length (List.filter (fun f => PyText.endswith f LABEL_EXT) names))
     else mret O) ;
  (if (0 <? image_count)%nat || (0 <? label_count)%nat then
     print ("  " +:+ PyText.ljust (PyText.upper platform) 12
            +:+ " Images: " +:+ PyText.rjust_int (Z.of_nat image_count) 4
            +:+ "  Labels: " +:+ PyText.rjust_int (Z.of_nat label_count) 4)
   else mret tt) ;;
  mret (totals.1 + image_count, totals.2 + label_count)%nat.

(** [print_statistics()] *)
Definition print_statistics : M (World FS) unit :=
  print (PyText.newline +:+ PyText.repeat_char "=" 60) ;;
  print "CURRENT DATASET STATISTICS" ;;
  print (PyText.repeat_char "=" 60) ;;
  totals ← for_each_acc PLATFORMS (O, O) statistics_of_platform ;
  print (PyText.repeat_char "-" 60) ;;
  print ("  " +:+ PyText.ljust "TOTAL" 12
         +:+ " Images: " +:+ PyText.rjust_int (Z.of_nat totals.1) 4
         +:+ "  Labels: " +:+ PyText.rjust_int (Z.of_nat totals.2) 4) ;;
  print (PyText.repeat_char "=" 60 +:+ PyText.newline).

(** [main()], for a run in which the observer thread dispatches [events]
    between [observer.start()] and the interrupt from the keyboard: the main
    thread only sleeps meanwhile, and [observer.join()] waits for the event in
    progress. *)
Definition main (home : string) (events : list FileSystemEvent) : M (World FS) unit :=
  print (PyText.newline +:+ PyText.repeat_char "=" 60) ;;
  print "SOCIAL MEDIA DATA COLLECTOR - FILE ORGANIZER" ;;
  print (PyText.repeat_char "=" 60 +:+ PyText.newline) ;;
  setup_folders home ;;
  print_statistics ;;
  print "Watching for new files..." ;;
  print ("Monitoring: " +:+ WATCH_FOLDER home) ;;
  print ("Organizing to: " +:+ DEST_BASE +:+ "/{platform}/{images|labels}/"
         +:+ PyText.newline) ;;
  print ("Press Ctrl+C to stop" +:+ PyText.newline) ;;
  dispatch_events events ;;
  print (PyText.newline +:+ PyText.newline +:+ "Stopping file organizer...") ;;
  print_statistics ;;
  print ("File organizer stopped. Goodbye!" +:+ PyText.newline).

End Startup.

(** *** Listing a directory of the concrete file system *)

Module PosixDir.

(** The name under which [path] is an entry of [folder], if it is one. *)
Definition child_name (folder path : string) : option string :=
  if Py.startswith path (folder +:+ "/") then
    let name := Py.drop (String.length folder + 1) path in
    if String.eqb name "" || negb (Py.count os_path.sep name =? 0)%nat
    then None else Some name
  else None.

(** [os.listdir(folder)] *)
Definition listdir (folder : string) (m : PosixFS.t) : Exception + list string :=
  match m !! folder with
  | None => inl (PosixFS.FileNotFoundError folder)
  | Some (File _) => inl (PosixFS.NotADirectoryError folder)
  | Some Dir => inr (omap (fun entry => child_name folder entry.1) (map_to_list m))
  end.

#[global] Instance listing : OSListing PosixFS.t := {| os_listdir := listdir |}.

End PosixDir.

(** *** Vocabulary for start-up and statistics *)

(** The folders [setup_folders] creates, in the order of its calls. *)
Definition setup_targets (home : string) : list string :=
  WATCH_FOLDER home
  :: flat_map (fun platform =>
                 [os_path.join DEST_BASE [platform; "images"];
                  os_path.join DEST_BASE [platform; "labels"]]) PLATFORMS.

(** [os.makedirs] on each folder of a list in turn, up to the first one that
    raises: the exception if any, the file system left behind, and the
    folders the calls were made for. *)
Fixpoint makedirs_in_turn {FS} `{!OS FS} (folders : list string) (f : FS)
  : option Exception * FS * list string :=
  match folders with
  | [] => (None, f, [])
  | d :: rest =>
      match os_makedirs d f with
      | (Some e, f') => (Some e, f', [d])
      | (None, f') =>
          let '(r, f'', called) := makedirs_in_turn rest f' in (r, f'', d :: called)
      end
  end.

(** What [print_statistics] counts in one folder: the entries whose name ends
    with [ext], nothing when the folder does not exist, or the exception of
    [os.listdir]. *)
Definition folder_count {FS} `{!OS FS} `{!OSListing FS}
    (folder ext : string) (f : FS) : Exception + nat :=
  if os_exists folder f then
    match os_listdir folder f with
    | inr names => inr (length (List.filter (fun n => PyText.endswith n ext) names))
    | inl e => inl e
    end
  else inr O.

(** The same count, taken as zero when the folder cannot be listed. *)
Definition count_in {FS} `{!OS FS} `{!OSListing FS}
    (folder ext : string) (f : FS) : nat :=
  match folder_count folder ext f with inr n => n | inl _ => O end.

Definition image_count {FS} `{!OS FS} `{!OSListing FS} (platform : string) (f : FS) : nat :=
  count_in (os_path.join DEST_BASE [platform; "images"]) IMAGE_EXT f.

Definition label_count {FS} `{!OS FS} `{!OSListing FS} (platform : string) (f : FS) : nat :=
  count_in (os_path.join DEST_BASE [platform; "labels"]) LABEL_EXT f.

(** A line of the table of [print_statistics]. *)
Definition statistics_line (title : string) (images labels : nat) : string :=
  "  " +:+ PyText.ljust title 12
  +:+ " Images: " +:+ PyText.rjust_int (Z.of_nat images) 4
  +:+ "  Labels: " +:+ PyText.rjust_int (Z.of_nat labels) 4.

(** The lines of the table for a list of platforms: one for each platform
    that has a file. *)
Definition statistics_rows {FS} `{!OS FS} `{!OSListing FS}
    (platforms : list string) (f : FS) : list string :=
  flat_map (fun platform =>
              if (0 <? image_count platform f)%nat || (0 <? label_count platform f)%nat
              then [statistics_line (PyText.upper platform)
                      (image_count platform f) (label_count platform f)]
              else []) platforms.

(** The sum of a list of numbers. *)
Definition total (counts : list nat) : nat := foldr Nat.add O counts.

(** The destination of a move: a name without separator, directly in the
    folder of a platform of the registry. *)
Definition in_destination_tree (dst : string) : Prop :=
  exists platform sub name,
    In platform PLATFORMS
    /\ (sub = "images" \/ sub = "labels")
    /\ Py.count os_path.sep name = O
    /\ dst = DEST_BASE +:+ "/" +:+ platform +:+ "/" +:+ sub +:+ "/" +:+ name.

(** A folder and the folders above it, outermost first. *)
Definition folder_chain (path : string) : list string :=
  PosixFS.ancestors path ++ [path].

(** Each of the two folders of a platform can be listed, or does not exist. *)
Definition countable {FS} `{!OS FS} `{!OSListing FS} (platform : string) (f : FS) : Prop :=
  (exists n, folder_count (os_path.join DEST_BASE [platform; "images"]) IMAGE_EXT f = inr n)
  /\ (exists n, folder_count (os_path.join DEST_BASE [platform; "labels"]) LABEL_EXT f = inr n).

(** The existence checks of [print_statistics], in the order of its calls. *)
Definition statistics_checks (platforms : list string) : list Syscall :=
  flat_map (fun platform =>
              [SysExists (os_path.join DEST_BASE [platform; "images"]);
               SysExists (os_path.join DEST_BASE [platform; "labels"])]) platforms.

(** What the entry at [path] adds to the count of [folder] for [ext]. *)
Definition contribution (folder ext path : string) : nat :=
  match PosixDir.child_name folder path with
  | Some name => if PyText.endswith name ext then 1 else 0
  | None => 0
  end.

(** The count of [folder] for [ext] over a list of entries. *)
Definition count_entries (folder ext : string) (entries : list (string * node)) : nat :=
  length (List.filter (fun name => PyText.endswith name ext)
            (omap (fun entry => PosixDir.child_name folder entry.1) entries)).

(** The run returned. *)
Definition is_returned {W A : Type} (o : Outcome W A) : bool :=
  match o with Returned _ _ => true | Raised _ _ => false end.

Example split_ex : Py.split "_" "twitter_1730912345678_0347.jpg"
  = ["twitter"; "1730912345678"; "0347.jpg"].
Proof. reflexivity. Qed.
Example split_ex2 : Py.split "_" "" = [""] /\ Py.split "_" "_a_" = [""; "a"; ""].
Proof. split; reflexivity. Qed.
Example lower_ex : Py.lower "TikTok_AZ@[`az{" = "tiktok_az@[`az{".
Proof. reflexivity. Qed.
Example rfind_ex : Py.rfind "." "a.b.c" = 3 /\ Py.rfind "/" "a.b.c" = -1.
Proof. split; reflexivity. Qed.
Example str_ex : Py.str_of_int 0 = "0" /\ Py.str_of_int 1730912345 = "1730912345" /\ Py.str_of_int (-12) = "-12".
Proof. repeat split; reflexivity. Qed.

Example join_ex : os_path.join DEST_BASE ["twitter"; "images"] = "C:/Users/offrk/Desktop/dataset/twitter/images"
  /\ os_path.join "a/" ["b"; "/c"; "d"] = "/c/d" /\ os_path.join "" ["b"] = "b".
Proof. repeat split; reflexivity. Qed.
Example splitext_ex : os_path.splitext "twitter_1_2.JPG" = ("twitter_1_2", ".JPG")
  /\ os_path.splitext ".bashrc" = (".bashrc", "")
  /\ os_path.splitext "a.b/c" = ("a.b/c", "")
  /\ os_path.splitext "a/..x" = ("a/..x", "")
  /\ os_path.splitext "a/.b.x" = ("a/.b", ".x")
  /\ os_path.splitext "x.tar.gz" = ("x.tar", ".gz")
  /\ os_path.splitext "x." = ("x", ".").
Proof. repeat split; reflexivity. Qed.
Example dirname_ex : os_path.dirname "/a/b/c.txt" = "/a/b" /\ os_path.dirname "c" = ""
  /\ os_path.dirname "/c" = "/" /\ os_path.dirname "a//b" = "a" /\ os_path.basename "/a/b/c.txt" = "c.txt" /\ os_path.basename "c" = "c".
Proof. repeat split; reflexivity. Qed.


(** ** Facts about strings *)

Module PyFacts.
Import Py.

Lemma append_cons c s t : String c s +:+ t = String c (s +:+ t).
Proof. reflexivity. Qed.

Lemma append_nil_r s : s +:+ "" = s.
Proof. induction s as [|c s IH]; [reflexivity|]. rewrite append_cons. by f_equal. Qed.

Lemma append_assoc s t u : (s +:+ t) +:+ u = s +:+ t +:+ u.
Proof.
  induction s as [|c s IH]; [reflexivity|].
  rewrite !append_cons. by f_equal.
Qed.

Lemma length_append s t :
  String.length (s +:+ t) = (String.length s + String.length t)%nat.
Proof.
  induction s as [|c s IH]; [reflexivity|].
  rewrite append_cons. cbn [String.length]. by rewrite IH.
Qed.

Lemma append_inv_head s t u : s +:+ t = s +:+ u -> t = u.
Proof.
  induction s as [|c s IH]; [done|].
  rewrite !append_cons. intros [= Heq]. auto.
Qed.

(** *** Slices *)

Lemma take_drop n s : take n s +:+ drop n s = s.
Proof.
  revert s. induction n as [|n IH]; intros [|c s]; try reflexivity.
  cbn [take drop]. rewrite append_cons. by f_equal.
Qed.

Lemma take_app_length a b : take (String.length a) (a +:+ b) = a.
Proof.
  induction a as [|c a IH]; [by destruct b|].
  rewrite append_cons. cbn [String.length take]. by f_equal.
Qed.

Lemma drop_app_length a b : drop (String.length a) (a +:+ b) = b.
Proof. induction a as [|c a IH]; [reflexivity|]. by rewrite append_cons. Qed.

Lemma drop_app_le n a b :
  (n <= String.length a)%nat -> drop n (a +:+ b) = drop n a +:+ b.
Proof.
  revert a. induction n as [|n IH]; intros [|c a] Hle; try reflexivity.
  - cbn in Hle. lia.
  - rewrite append_cons. cbn [drop]. apply IH. cbn in Hle. lia.
Qed.

Lemma length_take n s : String.length (take n s) = Nat.min n (String.length s).
Proof.
  revert s. induction n as [|n IH]; intros [|c s]; try reflexivity.
  cbn [take String.length Nat.min]. by rewrite IH.
Qed.

Lemma length_drop n s : String.length (drop n s) = (String.length s - n)%nat.
Proof.
  revert s. induction n as [|n IH]; intros [|c s]; try reflexivity.
  cbn [drop String.length]. by rewrite IH.
Qed.

(** *** Counting a character *)

Lemma count_app c s t : count c (s +:+ t) = (count c s + count c t)%nat.
Proof.
  induction s as [|d s IH]; [reflexivity|].
  rewrite append_cons. cbn [count]. rewrite IH. lia.
Qed.

Lemma count_drop_0 c n s : count c s = O -> count c (drop n s) = O.
Proof.
  intros Hc. rewrite <- (take_drop n s), count_app in Hc. lia.
Qed.

Lemma all_char_app d s t : all_char d (s +:+ t) = all_char d s && all_char d t.
Proof.
  induction s as [|c s IH]; [reflexivity|].
  rewrite append_cons. cbn [all_char]. rewrite IH. by rewrite andb_assoc.
Qed.

(** *** [split] *)

Lemma length_split c s : length (split c s) = S (count c s).
Proof.
  induction s as [|d s IH]; [reflexivity|].
  cbn [split count]. destruct (Ascii.eqb d c).
  - cbn [length]. by rewrite IH.
  - destruct (split c s) as [|p ps]; [discriminate|]. cbn [length] in *. lia.
Qed.

Lemma hd_split_app c a b :
  (0 < count c a)%nat -> hd "" (split c (a +:+ b)) = hd "" (split c a).
Proof.
  induction a as [|d a IH]; intros Hc; [cbn in Hc; lia|].
  rewrite append_cons. cbn [split count] in *. destruct (Ascii.eqb d c); [reflexivity|].
  assert (Hlen1 := length_split c (a +:+ b)). assert (Hlen2 := length_split c a).
  specialize (IH ltac:(lia)).
  destruct (split c (a +:+ b)) as [|p ps]; [discriminate|].
  destruct (split c a) as [|q qs]; [discriminate|].
  cbn [hd] in *. by f_equal.
Qed.

(** *** [rfind] *)

Lemma rfind_from_app c a b i last :
  rfind_from c (a +:+ b) i last
  = rfind_from c b (i + Z.of_nat (String.length a)) (rfind_from c a i last).
Proof.
  revert i last. induction a as [|d a IH]; intros i last.
  - cbn [String.length rfind_from]. change ("" +:+ b) with b. f_equal. lia.
  - rewrite append_cons. cbn [rfind_from String.length]. rewrite IH. f_equal. lia.
Qed.

Lemma rfind_from_absent c s i last : count c s = O -> rfind_from c s i last = last.
Proof.
  revert i last. induction s as [|d s IH]; intros i last Hc; [reflexivity|].
  cbn [rfind_from count] in *. destruct (Ascii.eqb d c); [lia|]. by apply IH.
Qed.

(** Either the character is absent, or the result points at its last
    occurrence. *)
Lemma rfind_from_spec c s i last :
  (rfind_from c s i last = last /\ count c s = O)
  \/ (exists a e, s = a +:+ String c e /\ count c e = O
        /\ rfind_from c s i last = i + Z.of_nat (String.length a)).
Proof.
  revert i last. induction s as [|d s IH]; intros i last; [by left|].
  cbn [rfind_from count].
  destruct (IH (i + 1) (if Ascii.eqb d c then i else last))
    as [[Hr Hc]|(a & e & -> & Hc & Hr)].
  - destruct (Ascii.eqb_spec d c) as [->|Hne].
    + right. exists "", s. repeat split; [done|]. rewrite Hr. cbn. lia.
    + left. split; [done|]. by rewrite Hc.
  - right. exists (String d a), e. rewrite append_cons. repeat split; [done|].
    rewrite Hr. cbn [String.length]. lia.
Qed.

Lemma rfind_app_absent c a b : count c b = O -> rfind c (a +:+ b) = rfind c a.
Proof. intros Hc. unfold rfind. rewrite rfind_from_app. by apply rfind_from_absent. Qed.

Lemma rfind_app_last c a e :
  count c e = O -> rfind c (a +:+ String c e) = Z.of_nat (String.length a).
Proof.
  intros Hc. unfold rfind. rewrite rfind_from_app. cbn [rfind_from].
  rewrite Ascii.eqb_refl. rewrite rfind_from_absent by done. lia.
Qed.

Lemma rfind_bounds c s : -1 <= rfind c s < Z.of_nat (String.length s).
Proof.
  unfold rfind. destruct (rfind_from_spec c s 0 (-1)) as [[-> _]|(a & e & -> & _ & ->)].
  - lia.
  - rewrite length_append. cbn [String.length]. lia.
Qed.

End PyFacts.

(** ** Facts about [os.path.splitext] and [os.path.join] *)

Module PathFacts.
Import Py PyFacts os_path.

Lemma drop_app_ge n a b :
  (String.length a <= n)%nat -> drop n (a +:+ b) = drop (n - String.length a) b.
Proof.
  revert n. induction a as [|c a IH]; intros n Hle.
  - cbn [String.length]. by rewrite Nat.sub_0_r.
  - destruct n as [|n]; [cbn in Hle; lia|].
    rewrite append_cons. cbn [drop String.length]. apply IH. cbn in Hle. lia.
Qed.

(** [splitext] on a path that ends in a dot followed by neither a dot nor a
    separator. *)
Lemma splitext_app_dot b e :
  count extsep e = O -> count sep e = O ->
  splitext (b +:+ String extsep e)
  = if negb (all_char extsep (last_component b))
    then (b, String extsep e) else (b +:+ String extsep e, "").
Proof.
  intros Hdot Hsep. unfold splitext, last_component.
  rewrite (rfind_app_last extsep b e Hdot).
  rewrite (rfind_app_absent sep b (String extsep e)) by (cbn [count]; rewrite Hsep; reflexivity).
  pose proof (rfind_bounds sep b) as Hb.
  destruct (Z.ltb_spec (rfind sep b) (Z.of_nat (String.length b))) as [_|?]; [|lia].
  unfold slice, slice_to, slice_from. rewrite Nat2Z.id.
  rewrite drop_app_le by lia.
  replace (Z.to_nat (Z.of_nat (String.length b) - (rfind sep b + 1)))
    with (String.length (drop (Z.to_nat (rfind sep b + 1)) b))
    by (rewrite length_drop; lia).
  rewrite take_app_length, take_app_length, drop_app_length.
  cbn [andb]. by destruct (all_char extsep _).
Qed.

(** A non-empty extension starts at the last dot, and holds no other dot
    and no separator. *)
Lemma splitext_ext p b e :
  splitext p = (b, e) -> e <> "" ->
  p = b +:+ e
  /\ exists e', e = String extsep e' /\ count extsep e' = O /\ count sep e' = O
       /\ all_char extsep (last_component b) = false.
Proof.
  intros Hsplit Hne.
  assert (Hdec : exists a e0, p = a +:+ String extsep e0
                   /\ count extsep e0 = O /\ count sep e0 = O).
  { unfold splitext in Hsplit.
    destruct (_ && _) eqn:Hcond.
    2:{ injection Hsplit as _ <-. by destruct p. }
    apply andb_prop in Hcond as [Hlt _]. apply Z.ltb_lt in Hlt.
    unfold rfind in Hlt.
    destruct (rfind_from_spec extsep p 0 (-1)) as [[Hr _]|(a & e0 & Hp & Hc & Hr)].
    { pose proof (rfind_bounds sep p) as Hb. unfold rfind in Hb. lia. }
    exists a, e0. repeat split; [done..|].
    destruct (rfind_from_spec sep p 0 (-1)) as [[_ Habs]|(a2 & e2 & Hp2 & Hc2 & Hr2)].
    - rewrite Hp, count_app in Habs. cbn [count] in Habs. lia.
    - assert (Hd : drop (String.length a) p = String extsep e0)
        by (rewrite Hp; apply drop_app_length).
      rewrite Hp2 in Hd.
      replace (a2 +:+ String sep e2) with ((a2 +:+ String sep "") +:+ e2) in Hd
        by (by rewrite append_assoc).
      rewrite drop_app_ge in Hd
        by (rewrite length_append; cbn [String.length]; lia).
      assert (Hz : count sep (String extsep e0) = O)
        by (rewrite <- Hd; by apply count_drop_0).
      cbn [count] in Hz. lia. }
  destruct Hdec as (a & e0 & -> & Hdot & Hsep).
  rewrite splitext_app_dot in Hsplit by done.
  destruct (all_char extsep (last_component a)) eqn:Hall; cbn [negb] in Hsplit.
  - injection Hsplit as _ <-. done.
  - injection Hsplit as <- <-. split; [done|]. by exists e0.
Qed.

Lemma splitext_app p : (splitext p).1 +:+ (splitext p).2 = p.
Proof.
  unfold splitext. destruct (_ && _); cbn [fst snd].
  - apply take_drop.
  - unfold slice_to. cbn [Z.to_nat take]. apply append_nil_r.
Qed.

(** Text without dots and separators may be inserted in front of the
    extension: the extension stays the same. *)
Lemma splitext_insert p b e mid :
  splitext p = (b, e) -> e <> "" ->
  count extsep mid = O -> count sep mid = O ->
  splitext (b +:+ mid +:+ e) = (b +:+ mid, e).
Proof.
  intros Hsplit Hne Hdot Hsep.
  destruct (splitext_ext p b e Hsplit Hne) as (_ & e' & -> & Hd & Hs & Hall).
  rewrite <- append_assoc, splitext_app_dot by done.
  assert (Hlast : last_component (b +:+ mid) = last_component b +:+ mid).
  { unfold last_component. rewrite rfind_app_absent by done.
    pose proof (rfind_bounds sep b). apply drop_app_le. lia. }
  by rewrite Hlast, all_char_app, Hall.
Qed.

End PathFacts.

(** ** Facts about the filename tests *)

Module NameFacts.
Import Py PyFacts os_path PathFacts.

Lemma lower_char_underscore d : Ascii.eqb (lower_char d) "_" = Ascii.eqb d "_".
Proof. destruct d as [[] [] [] [] [] [] [] []]; reflexivity. Qed.

Lemma count_underscore_lower s : count "_" (lower s) = count "_" s.
Proof.
  induction s as [|d s IH]; [reflexivity|].
  cbn [lower count]. by rewrite lower_char_underscore, IH.
Qed.

Lemma In_PLATFORMS x :
  In_list x PLATFORMS = true -> In x PLATFORMS.
Proof.
  unfold In_list. rewrite existsb_exists. intros (y & Hin & Heq).
  apply String.eqb_eq in Heq. by subst.
Qed.

Lemma subfolder_cases ext sub :
  subfolder_of ext = Some sub ->
  (ext = IMAGE_EXT /\ sub = "images") \/ (ext = LABEL_EXT /\ sub = "labels").
Proof.
  unfold subfolder_of.
  destruct (String.eqb_spec ext IMAGE_EXT) as [->|_]; [intros [= <-]; by left|].
  destruct (String.eqb_spec ext LABEL_EXT) as [->|_]; [intros [= <-]; by right|].
  discriminate.
Qed.

(** A filename with a recognised platform starts with a letter: it is not
    an absolute path. *)
Lemma platform_relative filename :
  In_list (platform_of filename) PLATFORMS = true ->
  startswith filename "/" = false.
Proof.
  unfold platform_of, parts_of. destruct filename as [|c r]; [done|].
  cbn [split startswith]. destruct (Ascii.eqb_spec "/" c) as [<-|]; [|done].
  cbn [Ascii.eqb Bool.eqb].
  destruct (split "_" r) as [|q qs]; cbn [hd lower]; vm_compute; done.
Qed.

(** The destination folder and the destination path, spelled out. *)
Lemma join_dest platform sub filename :
  In_list platform PLATFORMS = true ->
  sub = "images" \/ sub = "labels" ->
  startswith filename "/" = false ->
  join DEST_BASE [platform; sub] = DEST_BASE +:+ "/" +:+ platform +:+ "/" +:+ sub
  /\ join (join DEST_BASE [platform; sub]) [filename]
     = DEST_BASE +:+ "/" +:+ platform +:+ "/" +:+ sub +:+ "/" +:+ filename.
Proof.
  intros Hin Hsub Hrel. apply In_PLATFORMS in Hin.
  assert (Hstep : forall d, String.eqb d "" = false -> endswith_char d sep = false ->
            join d [filename] = d +:+ "/" +:+ filename).
  { intros d Hd He. unfold join, fold_left, join_step, sep in *.
    by rewrite Hrel, Hd, He. }
  repeat (destruct Hin as [<-|Hin]); try done;
    destruct Hsub as [-> | ->];
    (split; [reflexivity|rewrite Hstep by reflexivity; reflexivity]).
Qed.

Lemma count_string_of_uint c d :
  (N_of_ascii c < 48 \/ 57 < N_of_ascii c)%N ->
  count c (NilEmpty.string_of_uint d) = O.
Proof.
  intros Hc. induction d; cbn [NilEmpty.string_of_uint count]; [done|..];
    rewrite IHd;
    match goal with
    | |- context [Ascii.eqb ?x c] =>
        destruct (Ascii.eqb_spec x c) as [<-|];
        [vm_compute in Hc; exfalso; destruct Hc; discriminate|reflexivity]
    end.
Qed.

(** [str(n)] holds decimal digits and at most a minus sign. *)
Lemma count_str_of_int c n :
  (N_of_ascii c < 48 \/ 57 < N_of_ascii c)%N -> c <> "-"%char ->
  count c (str_of_int n) = O.
Proof.
  intros Hc Hminus. unfold str_of_int, NilZero.string_of_int, NilZero.string_of_uint.
  assert (Hz : count c "0" = O).
  { cbn [count]. destruct (Ascii.eqb_spec "0" c) as [<-|]; [|done].
    vm_compute in Hc. destruct Hc; discriminate. }
  destruct n as [|q|q]; cbn [Z.to_int]; [done| |].
  - destruct (Pos.to_uint q) eqn:E; rewrite <- ?E; by rewrite ?count_string_of_uint.
  - cbn [count]. destruct (Ascii.eqb_spec "-" c) as [<-|]; [done|].
    destruct (Pos.to_uint q) eqn:E; rewrite <- ?E; by rewrite ?count_string_of_uint.
Qed.

(** The text the program inserts holds neither a dot nor a separator. *)
Lemma count_marker c t :
  c = extsep \/ c = sep -> count c ("_dup_" +:+ str_of_int t) = O.
Proof.
  intros Hc. rewrite count_app.
  rewrite count_str_of_int; [|destruct Hc as [-> | ->]; vm_compute; by left|destruct Hc as [-> | ->]; done].
  destruct Hc as [-> | ->]; reflexivity.
Qed.

(** An accepted name splits into a base with at least two underscores and
    an extension without any. *)
Lemma accepted_shape filename sub :
  accepted filename sub ->
  exists base ext,
    splitext filename = (base, ext) /\ ext <> "" /\ filename = base +:+ ext
    /\ count "_" ext = O /\ (2 <= count "_" base)%nat
    /\ (sub = "images" \/ sub = "labels").
Proof.
  intros (Hlen & _ & Hsub). unfold extension_of in Hsub.
  destruct (splitext filename) as [base ext] eqn:Hsplit. cbn [snd] in Hsub.
  pose proof (splitext_app filename) as Happ. rewrite Hsplit in Happ. cbn [fst snd] in Happ.
  assert (Hext : count "_" ext = O /\ ext <> "").
  { rewrite <- count_underscore_lower.
    destruct (subfolder_cases _ _ Hsub) as [[Hl _]|[Hl _]]; rewrite Hl;
      (split; [reflexivity|intros ->; discriminate]). }
  destruct Hext as [Hu Hne].
  exists base, ext. repeat split; [done..| |].
  - unfold parts_of in Hlen. rewrite length_split, <- Happ, count_app in Hlen. lia.
  - destruct (subfolder_cases _ _ Hsub) as [[_ ->]|[_ ->]]; auto.
Qed.

(** Disambiguation keeps the platform, the extension and the acceptance. *)
Lemma dup_filename_accepted filename sub t :
  accepted filename sub ->
  accepted (dup_filename filename t) sub
  /\ platform_of (dup_filename filename t) = platform_of filename
  /\ extension_of (dup_filename filename t) = extension_of filename.
Proof.
  intros Hacc.
  destruct (accepted_shape _ _ Hacc) as (base & ext & Hsplit & Hne & Hfn & Hu & Hb & _).
  destruct Hacc as (Hlen & Hplat & Hsub).
  unfold dup_filename. rewrite Hsplit.
  assert (Hsplit' : splitext (base +:+ "_dup_" +:+ str_of_int t +:+ ext)
                    = (base +:+ "_dup_" +:+ str_of_int t, ext)).
  { rewrite <- (append_assoc "_dup_"), <- (append_assoc base).
    rewrite (append_assoc base). 
    apply (splitext_insert filename); [done..| |]; apply count_marker; auto. }
  assert (Hplat' : platform_of (base +:+ "_dup_" +:+ str_of_int t +:+ ext)
                   = platform_of filename).
  { unfold platform_of, parts_of. rewrite Hfn.
    rewrite !hd_split_app by lia. done. }
  assert (Hext' : extension_of (base +:+ "_dup_" +:+ str_of_int t +:+ ext)
                  = extension_of filename).
  { unfold extension_of. by rewrite Hsplit', Hsplit. }
  repeat split; [| by rewrite Hplat' | by rewrite Hext' | done..].
  unfold parts_of. rewrite length_split, !count_app. lia.
Qed.

Lemma dup_filename_longer filename t :
  (String.length filename < String.length (dup_filename filename t))%nat.
Proof.
  unfold dup_filename. pose proof (splitext_app filename) as Happ.
  destruct (splitext filename) as [base ext]. cbn [fst snd] in Happ.
  rewrite <- Happ, !length_append. cbn [String.length]. lia.
Qed.

End NameFacts.

(** ** Running [process_file]: one equation per way through its body *)

Section Runs.
Context {FS : Type} `{!OS FS}.
Implicit Types (w : World FS) (filepath filename : string).

Lemma process_file_malformed filepath filename w :
  (length (parts_of filename) < 3)%nat ->
  process_file filepath filename w
  = Returned tt (mkWorld (fs w) (now w) (stdout w ++ [line_invalid filename]) (syscalls w)).
Proof.
  intros Hlen. unfold process_file, try_except, process_file_try.
  fold (parts_of filename).
  destruct (Nat.ltb_spec (length (parts_of filename)) 3) as [_|Hge]; [|lia].
  reflexivity.
Qed.

Lemma process_file_unknown_platform filepath filename w :
  (3 <= length (parts_of filename))%nat ->
  Py.In_list (platform_of filename) PLATFORMS = false ->
  process_file filepath filename w
  = Returned tt (mkWorld (fs w) (now w)
                   (stdout w ++ [line_unknown_platform (platform_of filename)])
                   (syscalls w)).
Proof.
  intros Hlen Hplat. unfold process_file, try_except, process_file_try.
  fold (parts_of filename).
  destruct (Nat.ltb_spec (length (parts_of filename)) 3) as [Hlt|_]; [lia|].
  fold (platform_of filename). rewrite Hplat. reflexivity.
Qed.

Lemma process_file_unknown_extension filepath filename w :
  (3 <= length (parts_of filename))%nat ->
  Py.In_list (platform_of filename) PLATFORMS = true ->
  subfolder_of (extension_of filename) = None ->
  process_file filepath filename w
  = Returned tt (mkWorld (fs w) (now w)
                   (stdout w ++ [line_unknown_extension (extension_of filename)])
                   (syscalls w)).
Proof.
  intros Hlen Hplat Hext. unfold process_file, try_except, process_file_try.
  fold (parts_of filename).
  destruct (Nat.ltb_spec (length (parts_of filename)) 3) as [Hlt|_]; [lia|].
  fold (platform_of filename). rewrite Hplat.
  fold (extension_of filename). unfold subfolder_of in Hext.
  destruct (String.eqb (extension_of filename) IMAGE_EXT); [discriminate|].
  destruct (String.eqb (extension_of filename) LABEL_EXT); [discriminate|].
  reflexivity.
Qed.

Lemma process_file_accepted filepath filename sub w :
  accepted filename sub ->
  process_file filepath filename w
  = Returned tt (accepted_outcome filepath filename sub w).
Proof.
  intros (Hlen & Hplat & Hext).
  unfold process_file, try_except, process_file_try, accepted_outcome.
  fold (parts_of filename).
  destruct (Nat.ltb_spec (length (parts_of filename)) 3) as [Hlt|_]; [lia|].
  fold (platform_of filename). rewrite Hplat.
  fold (extension_of filename). unfold subfolder_of in Hext.
  unfold line_moved, file_type_of.
  set (ext := extension_of filename) in *.
  set (plat := platform_of filename) in *.
  assert (Hfolder :
    (if String.eqb ext IMAGE_EXT then Some (os_path.join DEST_BASE [plat; "images"])
     else if String.eqb ext LABEL_EXT then Some (os_path.join DEST_BASE [plat; "labels"])
     else None) = Some (os_path.join DEST_BASE [plat; sub])).
  { destruct (String.eqb ext IMAGE_EXT); [congruence|].
    destruct (String.eqb ext LABEL_EXT); congruence. }
  cbv zeta. rewrite Hfolder. cbn [negb].
  unfold mbind, M_bind, mret, M_ret, makedirs, path_exists, shutil_move, print,
    int_time_time, lift_call, called, set_fs; cbn [fs now stdout syscalls fst snd].
  destruct (os_makedirs (os_path.join DEST_BASE [plat; sub]) (fs w)) as [[e|] f1];
    cbn [fst snd fs now stdout syscalls].
  - unfold line_error. reflexivity.
  - unfold dup_filename.
    destruct (os_exists (os_path.join (os_path.join DEST_BASE [plat; sub]) [filename]) f1);
      cbn [fs now stdout syscalls].
    + destruct (os_path.splitext filename) as [base e'].
      cbn [fst snd fs now stdout syscalls].
      destruct (os_move filepath _ f1) as [[e|] f2];
        cbn [fst snd fs now stdout syscalls];
        rewrite <- ?app_assoc; reflexivity.
    + destruct (os_move filepath _ f1) as [[e|] f2];
        cbn [fst snd fs now stdout syscalls];
        rewrite <- ?app_assoc, ?app_nil_r; reflexivity.
Qed.

End Runs.

(** ** What the printed lines tell apart *)

Module LineFacts.
Import Py PyFacts.

Lemma take2_moved filename :
  take 2 (line_moved filename) = "Im" \/ take 2 (line_moved filename) = "La".
Proof.
  unfold line_moved, file_type_of. destruct (String.eqb _ _); [left|right]; reflexivity.
Qed.

Lemma moved_not_invalid filename x : line_moved filename <> line_invalid x.
Proof.
  intros Heq. apply (f_equal (take 2)) in Heq.
  destruct (take2_moved filename) as [H|H]; rewrite H in Heq; discriminate.
Qed.

Lemma moved_not_unknown_platform filename x : line_moved filename <> line_unknown_platform x.
Proof.
  intros Heq. apply (f_equal (take 2)) in Heq.
  destruct (take2_moved filename) as [H|H]; rewrite H in Heq; discriminate.
Qed.

Lemma moved_not_unknown_extension filename x : line_moved filename <> line_unknown_extension x.
Proof.
  intros Heq. apply (f_equal (take 2)) in Heq.
  destruct (take2_moved filename) as [H|H]; rewrite H in Heq; discriminate.
Qed.

Lemma moved_not_error filename x e : line_moved filename <> line_error x e.
Proof.
  intros Heq. apply (f_equal (take 2)) in Heq.
  destruct (take2_moved filename) as [H|H]; rewrite H in Heq; discriminate.
Qed.

(** The last of the new lines, from an equation between two outputs. *)
Lemma last_line_eq (old xs ys : list string) (a b : string) :
  old ++ xs ++ [a] = old ++ ys ++ [b] -> a = b.
Proof.
  intros Heq. apply app_inv_head in Heq. by apply app_inj_tail in Heq as [_ ?].
Qed.

Lemma startswith_app p b : startswith (p +:+ b) p = true.
Proof.
  induction p as [|c p IH]; [by destruct b|].
  rewrite append_cons. cbn [startswith]. by rewrite Ascii.eqb_refl, IH.
Qed.

Lemma contains_here s p : startswith s p = true -> contains s p = true.
Proof. intros Hs. destruct s; cbn [contains]; by rewrite Hs. Qed.

Lemma contains_app_r a s p : contains s p = true -> contains (a +:+ s) p = true.
Proof.
  intros Hc. induction a as [|c a IH]; [done|].
  rewrite append_cons. cbn [contains]. rewrite IH. apply orb_true_r.
Qed.

Lemma contains_middle a p b : contains (a +:+ p +:+ b) p = true.
Proof. apply contains_app_r, contains_here, startswith_app. Qed.

End LineFacts.

(** ** Reading a successful run backwards *)

Section Placed.
Context {FS : Type} `{!OS FS}.
Import LineFacts.

(** A run that printed its success message went through every test, and
    neither [os.makedirs] nor [shutil.move] raised. *)
Lemma placed_inv filepath filename (w : World FS) :
  placed filepath filename w ->
  exists sub f1 f2,
    accepted filename sub
    /\ let dest_folder := os_path.join DEST_BASE [platform_of filename; sub] in
       let naive := os_path.join dest_folder [filename] in
       let target :=
         if os_exists naive f1
         then os_path.join dest_folder [dup_filename filename (Z.quot (now w) 1000)]
         else naive in
       os_makedirs dest_folder (fs w) = (None, f1)
       /\ os_move filepath target f1 = (None, f2)
       /\ fs (final (process_file filepath filename w)) = f2
       /\ syscalls (final (process_file filepath filename w))
          = syscalls w ++ [SysMakedirs dest_folder; SysExists naive;
                           SysMove filepath target].
Proof.
  intros [lines Hout].
  destruct (Nat.ltb_spec (length (parts_of filename)) 3) as [Hlt|Hge].
  { rewrite process_file_malformed in Hout by done. cbn [final stdout] in Hout.
    apply (last_line_eq _ []) in Hout. symmetry in Hout. by apply moved_not_invalid in Hout. }
  destruct (Py.In_list (platform_of filename) PLATFORMS) eqn:Hplat.
  2:{ rewrite process_file_unknown_platform in Hout by done. cbn [final stdout] in Hout.
      apply (last_line_eq _ []) in Hout. symmetry in Hout.
      by apply moved_not_unknown_platform in Hout. }
  destruct (subfolder_of (extension_of filename)) as [sub|] eqn:Hsub.
  2:{ rewrite process_file_unknown_extension in Hout by done. cbn [final stdout] in Hout.
      apply (last_line_eq _ []) in Hout. symmetry in Hout.
      by apply moved_not_unknown_extension in Hout. }
  assert (Hacc : accepted filename sub) by done.
  rewrite (process_file_accepted _ _ sub) in * by done. cbn [final] in *.
  unfold accepted_outcome in *. cbv zeta in *.
  destruct (os_makedirs _ (fs w)) as [[e|] f1] eqn:Hmk; cbn [stdout] in Hout.
  { apply (last_line_eq _ []) in Hout. symmetry in Hout. by apply moved_not_error in Hout. }
  destruct (os_move filepath _ f1) as [[e|] f2] eqn:Hmv; cbn [stdout fs syscalls] in *.
  { rewrite <- app_assoc in Hout. apply last_line_eq in Hout. symmetry in Hout.
    by apply moved_not_error in Hout. }
  exists sub, f1, f2. split; [done|]. cbv zeta. by rewrite Hmv.
Qed.

End Placed.

(** ** Facts about the concrete file system *)

Module PosixFacts.
Import PosixFS.

Lemma mkdir_each_preserves leaf dirs (m m' : t) r p n :
  mkdir_each leaf dirs m = (r, m') -> m !! p = Some n -> m' !! p = Some n.
Proof.
  revert m. induction dirs as [|d ds IH]; intros m Hrun Hp; cbn [mkdir_each] in Hrun.
  - by injection Hrun as _ <-.
  - destruct (m !! d) as [[c|]|] eqn:Hd.
    + by injection Hrun as _ <-.
    + eauto.
    + apply (IH _ Hrun). rewrite lookup_insert_ne; [done|]. intros ->. congruence.
Qed.

(** [os.makedirs] creates directories where nothing was, and touches
    nothing else. *)
Lemma makedirs_preserves path (m m' : t) r p n :
  makedirs path m = (r, m') -> m !! p = Some n -> m' !! p = Some n.
Proof.
  unfold makedirs. destruct (String.eqb path "").
  - by intros [= _ <-].
  - apply mkdir_each_preserves.
Qed.

(** [shutil.move] of a regular file: it lands on [dst], or inside [dst] under
    a name that was free when [dst] is a directory. *)
Lemma move_file src dst (m m' : t) content :
  m !! src = Some (File content) ->
  move src dst m = (None, m') ->
  exists final_path,
    m' = <[final_path := File content]> (delete src m)
    /\ ((final_path = dst /\ isdir dst m = false)
        \/ (isdir dst m = true /\ m !! final_path = None)).
Proof.
  intros Hsrc. unfold move.
  destruct (isdir dst m) eqn:Hdir.
  - destruct (String.eqb_spec src dst) as [->|Hne].
    { unfold isdir in Hdir. rewrite Hsrc in Hdir. discriminate. }
    set (real_dst := os_path.join dst _).
    unfold exists_. destruct (m !! real_dst) eqn:Hreal; [discriminate|].
    unfold rename. rewrite Hsrc, Hreal. destruct (negb _); [discriminate|].
    intros [= <-]. exists real_dst. split; [done|]. by right.
  - unfold rename. rewrite Hsrc. destruct (negb _); [discriminate|].
    unfold isdir in Hdir.
    destruct (m !! dst) as [[c|]|] eqn:Hdst; try discriminate;
      intros [= <-]; exists dst; (split; [done|]); left; split; try done;
      unfold isdir; by rewrite Hdst.
Qed.

End PosixFacts.

(** ** The shape of every run *)

Section Shapes.
Context {FS : Type} `{!OS FS}.
Implicit Types (w : World FS) (filepath filename : string).
Import NameFacts.

(** An accepted file: the first call creates the destination folder, every
    move goes into that folder, and the last line printed is the success
    message or the error message. *)
Lemma accepted_run_shape filepath filename sub w :
  accepted filename sub ->
  let dest_folder := DEST_BASE +:+ "/" +:+ platform_of filename +:+ "/" +:+ sub in
  exists w' rest lines line,
    process_file filepath filename w = Returned tt w'
    /\ syscalls w' = syscalls w ++ SysMakedirs dest_folder :: rest
    /\ (forall src dst, In (SysMove src dst) rest ->
          Py.startswith dst (dest_folder +:+ "/") = true)
    /\ stdout w' = stdout w ++ lines ++ [line]
    /\ (line = line_moved filename \/ exists e, line = line_error filename e).
Proof.
  intros Hacc dest_folder.
  destruct (accepted_shape _ _ Hacc) as (base & ext & _ & _ & _ & _ & _ & Hsub).
  destruct (dup_filename_accepted filename sub (Z.quot (now w) 1000) Hacc)
    as ((_ & Hplat' & _) & Hsame & _).
  pose proof Hacc as (_ & Hplat & _).
  destruct (join_dest (platform_of filename) sub filename Hplat Hsub
              (platform_relative _ Hplat)) as [Hfolder Hnaive].
  destruct (join_dest (platform_of filename) sub
              (dup_filename filename (Z.quot (now w) 1000)) Hplat Hsub
              (platform_relative _ Hplat')) as [_ Hdup].
  rewrite (process_file_accepted _ _ sub) by done.
  unfold accepted_outcome. cbv zeta. rewrite Hnaive, Hdup, Hfolder.
  fold dest_folder.
  assert (Hunder : forall name,
            Py.startswith (DEST_BASE +:+ "/" +:+ platform_of filename +:+ "/" +:+ sub
                           +:+ "/" +:+ name) (dest_folder +:+ "/") = true).
  { intros name.
    replace (DEST_BASE +:+ "/" +:+ platform_of filename +:+ "/" +:+ sub +:+ "/" +:+ name)
      with ((dest_folder +:+ "/") +:+ name)
      by (unfold dest_folder; by rewrite !PyFacts.append_assoc).
    apply LineFacts.startswith_app. }
  destruct (os_makedirs dest_folder (fs w)) as [[e|] f1].
  { eexists _, [], [], _. split; [reflexivity|]. cbn [syscalls stdout].
    split; [reflexivity|]. split; [intros ?? []|]. split; [reflexivity|]. eauto. }
  destruct (os_move filepath _ f1) as [[e|] f2]; eexists _, _, _, _;
    (split; [reflexivity|]); cbn [syscalls stdout];
    (split; [reflexivity|]);
    (split; [intros ?? [[=]|[[= _ <-]|[]]]; destruct (os_exists _ f1); apply Hunder|]);
    (split; [by rewrite <- app_assoc|]); eauto.
Qed.

(** Whatever the file and the world, [process_file] returns and has printed
    a last line that tells the outcome. *)
Lemma process_file_shape filepath filename w :
  exists w' lines line,
    process_file filepath filename w = Returned tt w'
    /\ stdout w' = stdout w ++ lines ++ [line]
    /\ (line = line_moved filename
        \/ line = line_invalid filename
        \/ line = line_unknown_platform (platform_of filename)
        \/ line = line_unknown_extension (extension_of filename)
        \/ exists e, line = line_error filename e).
Proof.
  destruct (Nat.ltb_spec (length (parts_of filename)) 3) as [Hlt|Hge].
  { rewrite process_file_malformed by done. eexists _, [], _. eauto 10. }
  destruct (Py.In_list (platform_of filename) PLATFORMS) eqn:Hplat.
  2:{ rewrite process_file_unknown_platform by done. eexists _, [], _. eauto 10. }
  destruct (subfolder_of (extension_of filename)) as [sub|] eqn:Hsub.
  2:{ rewrite process_file_unknown_extension by done. eexists _, [], _. eauto 10. }
  destruct (accepted_run_shape filepath filename sub w ltac:(done))
    as (w' & rest & lines & line & Hrun & _ & _ & Hout & Hline).
  exists w', lines, line. repeat split; [done..|].
  destruct Hline as [->|[e ->]]; eauto 10.
Qed.

(** An accepted file whose destination folder could be created: the three
    system calls of the run, with the paths spelled out. *)
Lemma accepted_run_paths filepath filename sub w f1 :
  accepted filename sub ->
  let dest_folder := DEST_BASE +:+ "/" +:+ platform_of filename +:+ "/" +:+ sub in
  let candidate := dest_folder +:+ "/" +:+ filename in
  let resolved :=
    if os_exists candidate f1
    then dest_folder +:+ "/" +:+ dup_filename filename (Z.quot (now w) 1000)
    else candidate in
  os_makedirs dest_folder (fs w) = (None, f1) ->
  let w' := final (process_file filepath filename w) in
  syscalls w' = syscalls w ++ [SysMakedirs dest_folder; SysExists candidate;
                               SysMove filepath resolved]
  /\ fs w' = (os_move filepath resolved f1).2
  /\ stdout w' = stdout w
                 ++ (if os_exists candidate f1 then [line_exists candidate] else [])
                 ++ [match (os_move filepath resolved f1).1 with
                     | None => line_moved filename
                     | Some e => line_error filename e
                     end].
Proof.
  intros Hacc dest_folder candidate resolved Hmk w'.
  destruct (accepted_shape _ _ Hacc) as (base & ext & _ & _ & _ & _ & _ & Hsub).
  destruct (dup_filename_accepted filename sub (Z.quot (now w) 1000) Hacc)
    as ((_ & Hplat' & _) & _ & _).
  pose proof Hacc as (_ & Hplat & _).
  destruct (join_dest (platform_of filename) sub filename Hplat Hsub
              (platform_relative _ Hplat)) as [Hfolder Hnaive].
  destruct (join_dest (platform_of filename) sub
              (dup_filename filename (Z.quot (now w) 1000)) Hplat Hsub
              (platform_relative _ Hplat')) as [_ Hdup].
  subst w'. rewrite (process_file_accepted _ _ sub) by done.
  unfold accepted_outcome. cbv zeta. rewrite Hnaive, Hdup, Hfolder.
  fold dest_folder. rewrite Hmk. cbn [final].
  assert (Hflat : forall name,
            DEST_BASE +:+ "/" +:+ platform_of filename +:+ "/" +:+ sub +:+ "/" +:+ name
            = dest_folder +:+ "/" +:+ name)
    by (intros name; unfold dest_folder; by rewrite !PyFacts.append_assoc).
  rewrite !Hflat. fold candidate. fold resolved.
  destruct (os_move filepath resolved f1) as [[e|] f2]; cbn [syscalls fs stdout snd];
    (split; [reflexivity|]); (split; [reflexivity|]);
    by rewrite <- app_assoc.
Qed.

Lemma on_created_present event w :
  is_directory event = false ->
  os_exists (src_path event) (os_settle (fs w)) = true ->
  on_created event w
  = process_file (src_path event) (os_path.basename (src_path event))
      (mkWorld (os_settle (fs w)) (now w + 500) (stdout w)
               (syscalls w ++ [SysSleep 500; SysExists (src_path event)])).
Proof.
  intros Hfile Hthere. unfold on_created. rewrite Hfile.
  unfold mbind, M_bind, time_sleep, path_exists, called.
  cbn [fs now stdout syscalls]. rewrite Hthere. cbn [negb].
  by rewrite <- app_assoc.
Qed.

Lemma on_created_vanished event w :
  is_directory event = false ->
  os_exists (src_path event) (os_settle (fs w)) = false ->
  on_created event w
  = Returned tt (mkWorld (os_settle (fs w)) (now w + 500) (stdout w)
                   (syscalls w ++ [SysSleep 500; SysExists (src_path event)])).
Proof.
  intros Hfile Hgone. unfold on_created. rewrite Hfile.
  unfold mbind, M_bind, time_sleep, path_exists, called.
  cbn [fs now stdout syscalls]. rewrite Hgone. cbn [negb].
  by rewrite <- app_assoc.
Qed.

Lemma on_created_returns event w : exists w', on_created event w = Returned tt w'.
Proof.
  destruct (is_directory event) eqn:Hdir.
  { exists w. unfold on_created. by rewrite Hdir. }
  destruct (os_exists (src_path event) (os_settle (fs w))) eqn:Hthere.
  - rewrite on_created_present by done.
    destruct (process_file_shape (src_path event) (os_path.basename (src_path event))
                (mkWorld (os_settle (fs w)) (now w + 500) (stdout w)
                   (syscalls w ++ [SysSleep 500; SysExists (src_path event)])))
      as (w' & _ & _ & Hrun & _). eauto.
  - rewrite on_created_vanished by done. eauto.
Qed.

Lemma dispatch_events_cons event rest w w' :
  on_created event w = Returned tt w' ->
  dispatch_events (event :: rest) w = dispatch_events rest w'.
Proof. intros Hrun. cbn [dispatch_events]. unfold mbind, M_bind. by rewrite Hrun. Qed.

Lemma dispatch_events_returns events w :
  exists w', dispatch_events events w = Returned tt w'.
Proof.
  revert w. induction events as [|event rest IH]; intros w; [by exists w|].
  destruct (on_created_returns event w) as [w1 Hrun].
  rewrite (dispatch_events_cons _ _ _ _ Hrun). apply IH.
Qed.

Lemma dispatch_events_app events1 events2 w :
  dispatch_events (events1 ++ events2) w
  = dispatch_events events2 (final (dispatch_events events1 w)).
Proof.
  revert w. induction events1 as [|event rest IH]; intros w; [done|].
  destruct (on_created_returns event w) as [w1 Hrun].
  cbn [app]. rewrite !(dispatch_events_cons _ _ _ _ Hrun). apply IH.
Qed.

End Shapes.

(** ** The claims *)

Section Claims.
Context {FS : Type} `{!OS FS}.
Implicit Types (w : World FS) (filepath filename : string).
Import NameFacts.

(** C3. A filename whose split on underscores yields fewer than three
    segments is rejected as malformed: [process_file] prints the
    invalid-format message and does nothing else, whatever the label and the
    extension of the name are. *)
Theorem malformed_name_rejected filepath filename w :
  (length (Py.split "_" filename) < 3)%nat ->
  process_file filepath filename w
  = Returned tt (mkWorld (fs w) (now w)
                   (stdout w ++ ["Invalid filename format: " +:+ filename])
                   (syscalls w)).
Proof. apply process_file_malformed. Qed.

(** C4. A filename with at least three segments whose first segment,
    lower-cased, is not among the platforms is rejected as an unknown
    label: the message is printed, no system call is made (so no move), and
    the file system is left as it was. *)
Theorem unknown_label_rejected filepath filename w :
  (3 <= length (Py.split "_" filename))%nat ->
  Py.In_list (Py.lower (hd "" (Py.split "_" filename))) PLATFORMS = false ->
  process_file filepath filename w
  = Returned tt (mkWorld (fs w) (now w)
       (stdout w ++ ["Unknown platform: " +:+ Py.lower (hd "" (Py.split "_" filename))])
       (syscalls w)).
Proof. apply process_file_unknown_platform. Qed.

(** C7. Every call of [shutil.move] that a run of [process_file] makes moves
    the file it was given, and is made only for a filename with three
    segments, a platform of the registry and one of the two supported
    extensions. *)
Theorem move_only_after_checks filepath filename w :
  exists new,
    syscalls (final (process_file filepath filename w)) = syscalls w ++ new
    /\ forall src dst, In (SysMove src dst) new ->
         src = filepath
         /\ (3 <= length (Py.split "_" filename))%nat
         /\ Py.In_list (platform_of filename) PLATFORMS = true
         /\ (extension_of filename = IMAGE_EXT \/ extension_of filename = LABEL_EXT).
Proof.
  destruct (Nat.ltb_spec (length (parts_of filename)) 3) as [Hlt|Hge].
  { exists []. rewrite process_file_malformed by done. cbn [final syscalls].
    split; [by rewrite app_nil_r|]. intros ?? []. }
  destruct (Py.In_list (platform_of filename) PLATFORMS) eqn:Hplat.
  2:{ exists []. rewrite process_file_unknown_platform by done. cbn [final syscalls].
      split; [by rewrite app_nil_r|]. intros ?? []. }
  destruct (subfolder_of (extension_of filename)) as [sub|] eqn:Hsub.
  2:{ exists []. rewrite process_file_unknown_extension by done. cbn [final syscalls].
      split; [by rewrite app_nil_r|]. intros ?? []. }
  assert (Hext : extension_of filename = IMAGE_EXT \/ extension_of filename = LABEL_EXT).
  { destruct (subfolder_cases _ _ Hsub) as [[? _]|[? _]]; auto. }
  rewrite (process_file_accepted _ _ sub) by done. cbn [final].
  unfold accepted_outcome. cbv zeta.
  destruct (os_makedirs _ (fs w)) as [[e|] f1]; cbn [syscalls].
  { eexists. split; [reflexivity|]. intros ?? [[=]|[]]. }
  destruct (os_move filepath _ f1) as [[e|] f2]; cbn [syscalls];
    (eexists; split; [reflexivity|]);
    intros ?? [[=]|[[=]|[[= <- _]|[]]]]; done.
Qed.

(** C5. For a filename with three segments and a recognised platform the
    lower-cased extension decides the kind: [.jpg] sends the file to the
    [images] folder of the platform and is reported as an image, [.txt]
    sends it to the [labels] folder and is reported as a label, and any
    other extension is rejected with the unknown-extension message, nothing
    else being done. *)
Theorem extension_determines_kind filepath filename w :
  (3 <= length (Py.split "_" filename))%nat ->
  Py.In_list (platform_of filename) PLATFORMS = true ->
  let extension := Py.lower (os_path.splitext filename).2 in
  let w' := final (process_file filepath filename w) in
  let goes_to (sub file_type : string) :=
    let dest_folder := DEST_BASE +:+ "/" +:+ platform_of filename +:+ "/" +:+ sub in
    exists rest lines line,
      syscalls w' = syscalls w ++ SysMakedirs dest_folder :: rest
      /\ (forall src dst, In (SysMove src dst) rest ->
            Py.startswith dst (dest_folder +:+ "/") = true)
      /\ stdout w' = stdout w ++ lines ++ [line]
      /\ (line = file_type +:+ " moved: " +:+ platform_of filename +:+ "/" +:+ filename
          \/ exists e, line = "Error processing " +:+ filename +:+ ": " +:+ exc_str e) in
  (extension = IMAGE_EXT -> goes_to "images" "Image")
  /\ (extension = LABEL_EXT -> goes_to "labels" "Label")
  /\ (extension <> IMAGE_EXT -> extension <> LABEL_EXT ->
      process_file filepath filename w
      = Returned tt (mkWorld (fs w) (now w)
                       (stdout w ++ ["Unknown file extension: " +:+ extension])
                       (syscalls w))).
Proof.
  intros Hlen Hplat extension w' goes_to.
  assert (Hgo : forall sub file_type,
            subfolder_of extension = Some sub ->
            file_type_of extension = file_type -> goes_to sub file_type).
  { intros sub file_type Hsub Hty.
    destruct (accepted_run_shape filepath filename sub w ltac:(done))
      as (w1 & rest & lines & line & Hrun & Hcalls & Hunder & Hout & Hline).
    exists rest, lines, line. subst w'. rewrite Hrun. cbn [final].
    repeat split; [done..|].
    destruct Hline as [->|[e ->]]; [left|right; by exists e].
    unfold line_moved, extension_of. fold extension. by rewrite Hty. }
  split; [|split].
  - intros Hext. apply Hgo; by rewrite Hext.
  - intros Hext. apply Hgo; by rewrite Hext.
  - intros Hne1 Hne2. apply process_file_unknown_extension; [done..|].
    unfold subfolder_of. fold extension.
    apply String.eqb_neq in Hne1, Hne2. unfold extension_of. fold extension.
    by rewrite Hne1, Hne2.
Qed.

(** C2. When the candidate path exists, the file is moved to another path
    of the same folder, whose name is the base name, the marker [_dup_], the
    current time in whole seconds and the extension; the collision is
    reported, and the run checks the existence of the candidate only: the
    disambiguated path is handed to [shutil.move] unchecked. *)
Theorem collision_disambiguated_once filepath filename sub w f1 :
  accepted filename sub ->
  let dest_folder := DEST_BASE +:+ "/" +:+ platform_of filename +:+ "/" +:+ sub in
  let candidate := dest_folder +:+ "/" +:+ filename in
  os_makedirs dest_folder (fs w) = (None, f1) ->
  os_exists candidate f1 = true ->
  let base := (os_path.splitext filename).1 in
  let ext := (os_path.splitext filename).2 in
  let resolved :=
    dest_folder +:+ "/"
      +:+ (base +:+ "_dup_" +:+ Py.str_of_int (Z.quot (now w) 1000) +:+ ext) in
  let w' := final (process_file filepath filename w) in
  filename = base +:+ ext
  /\ resolved <> candidate
  /\ syscalls w' = syscalls w ++ [SysMakedirs dest_folder; SysExists candidate;
                                  SysMove filepath resolved]
  /\ (exists rest, stdout w' = stdout w ++ ("File already exists: " +:+ candidate) :: rest)
  /\ fs w' = (os_move filepath resolved f1).2.
Proof.
  intros Hacc dest_folder candidate Hmk Hcoll base ext resolved w'.
  assert (Hdup : base +:+ "_dup_" +:+ Py.str_of_int (Z.quot (now w) 1000) +:+ ext
                 = dup_filename filename (Z.quot (now w) 1000)).
  { unfold dup_filename, base, ext. by destruct (os_path.splitext filename). }
  destruct (accepted_run_paths filepath filename sub w f1 Hacc Hmk)
    as (Hcalls & Hfs & Hout).
  fold dest_folder candidate in Hcalls, Hfs, Hout. rewrite Hcoll in Hcalls, Hfs, Hout.
  fold w' in Hcalls, Hfs, Hout. unfold resolved. rewrite Hdup.
  split; [symmetry; apply PathFacts.splitext_app|].
  split; [|split; [done|split; [by eexists|done]]].
  intros Heq. apply (f_equal String.length) in Heq.
  unfold candidate in Heq. rewrite !PyFacts.length_append in Heq.
  pose proof (dup_filename_longer filename (Z.quot (now w) 1000)). lia.
Qed.

(** C8. An event for a directory changes nothing at all.  An event for a
    file that is gone after the settle delay is dropped: the handler
    sleeps, looks the path up once, prints nothing, and makes no further
    system call.  In both cases the handler returns, and the observer goes
    on with the events that follow. *)
Theorem vanished_source_discarded event rest w :
  (is_directory event = true ->
     on_created event w = Returned tt w
     /\ dispatch_events (event :: rest) w = dispatch_events rest w)
  /\ (is_directory event = false ->
      os_exists (src_path event) (os_settle (fs w)) = false ->
      let w' := mkWorld (os_settle (fs w)) (now w + 500) (stdout w)
                  (syscalls w ++ [SysSleep 500; SysExists (src_path event)]) in
      on_created event w = Returned tt w'
      /\ dispatch_events (event :: rest) w = dispatch_events rest w').
Proof.
  split.
  - intros Hdir.
    assert (Hrun : on_created event w = Returned tt w)
      by (unfold on_created; by rewrite Hdir).
    split; [done|]. by apply dispatch_events_cons.
  - intros Hfile Hgone w'.
    pose proof (on_created_vanished event w Hfile Hgone) as Hrun.
    split; [done|]. by apply dispatch_events_cons.
Qed.

(** C10. Disambiguation keeps the classification: the name made of the
    base name, the marker, a timestamp and the extension of an accepted
    filename is accepted as well, with the same platform and the same
    extension, and [process_file] sends it to the same destination
    folder. *)
Theorem disambiguation_keeps_classification filename sub t filepath w :
  accepted filename sub ->
  let new_filename :=
    (os_path.splitext filename).1 +:+ "_dup_" +:+ Py.str_of_int t
      +:+ (os_path.splitext filename).2 in
  accepted new_filename sub
  /\ platform_of new_filename = platform_of filename
  /\ extension_of new_filename = extension_of filename
  /\ exists rest,
       syscalls (final (process_file filepath new_filename w))
       = syscalls w
         ++ SysMakedirs (DEST_BASE +:+ "/" +:+ platform_of filename +:+ "/" +:+ sub)
         :: rest.
Proof.
  intros Hacc new_filename.
  assert (Hnew : new_filename = dup_filename filename t).
  { unfold dup_filename, new_filename. by destruct (os_path.splitext filename). }
  rewrite Hnew.
  destruct (dup_filename_accepted filename sub t Hacc) as (Hacc' & Hplat & Hext).
  repeat split; [apply Hacc'..|done|done|].
  destruct (accepted_run_shape filepath (dup_filename filename t) sub w Hacc')
    as (w1 & rest & _ & _ & Hrun & Hcalls & _).
  rewrite Hplat in Hcalls. exists rest. by rewrite Hrun.
Qed.

End Claims.

(** C9, as amended. No failure leaves the event it belongs to: [process_file]
    always returns, and its last line tells the outcome.  An exception of
    [os.makedirs] or of [shutil.move] is caught and reported with the filename
    and the text of the exception; a malformed name is reported with the
    filename; an unknown platform is reported with the lower-cased platform
    and an unknown extension with the lower-cased extension.  [on_created]
    never raises, so the observer hands every event of its queue to the
    handler, whatever happened to the events before. *)
Theorem failures_stay_inside_the_event {FS : Type} `{!OS FS} :
  (forall filepath filename (w : World FS),
     exists w' lines line,
       process_file filepath filename w = Returned tt w'
       /\ stdout w' = stdout w ++ lines ++ [line]
       /\ (line = line_moved filename
           \/ line = "Invalid filename format: " +:+ filename
           \/ line = "Unknown platform: " +:+ platform_of filename
           \/ line = "Unknown file extension: " +:+ extension_of filename
           \/ exists e, line = "Error processing " +:+ filename +:+ ": " +:+ exc_str e))
  /\ (forall filepath filename sub (w : World FS) e f1,
        accepted filename sub ->
        let dest_folder := DEST_BASE +:+ "/" +:+ platform_of filename +:+ "/" +:+ sub in
        os_makedirs dest_folder (fs w) = (Some e, f1) ->
        process_file filepath filename w
        = Returned tt
            (mkWorld f1 (now w)
               (stdout w ++ ["Error processing " +:+ filename +:+ ": " +:+ exc_str e])
               (syscalls w ++ [SysMakedirs dest_folder])))
  /\ (forall filepath filename sub (w : World FS) f1 e f2,
        accepted filename sub ->
        let dest_folder := DEST_BASE +:+ "/" +:+ platform_of filename +:+ "/" +:+ sub in
        let candidate := dest_folder +:+ "/" +:+ filename in
        let resolved :=
          if os_exists candidate f1
          then dest_folder +:+ "/" +:+ dup_filename filename (Z.quot (now w) 1000)
          else candidate in
        os_makedirs dest_folder (fs w) = (None, f1) ->
        os_move filepath resolved f1 = (Some e, f2) ->
        exists w' lines,
          process_file filepath filename w = Returned tt w'
          /\ fs w' = f2
          /\ stdout w'
             = stdout w ++ lines
               ++ ["Error processing " +:+ filename +:+ ": " +:+ exc_str e])
  /\ (forall filename e,
        Py.contains ("Error processing " +:+ filename +:+ ": " +:+ exc_str e) filename = true
        /\ Py.contains ("Error processing " +:+ filename +:+ ": " +:+ exc_str e) (exc_str e) = true
        /\ Py.contains ("Invalid filename format: " +:+ filename) filename = true)
  /\ (forall event (w : World FS), exists w', on_created event w = Returned tt w')
  /\ (forall events (w : World FS), exists w', dispatch_events events w = Returned tt w')
  /\ (forall events1 events2 (w : World FS),
        dispatch_events (events1 ++ events2) w
        = dispatch_events events2 (final (dispatch_events events1 w))).
Proof.
  split; [exact process_file_shape|].
  split.
  { intros filepath filename sub w e f1 Hacc dest_folder Hmk.
    destruct (NameFacts.accepted_shape _ _ Hacc) as (base & ext & _ & _ & _ & _ & _ & Hsub).
    pose proof Hacc as (_ & Hplat & _).
    destruct (NameFacts.join_dest (platform_of filename) sub filename Hplat Hsub
                (NameFacts.platform_relative _ Hplat)) as [Hfolder _].
    rewrite (process_file_accepted _ _ sub) by done.
    unfold accepted_outcome. cbv zeta. rewrite Hfolder. fold dest_folder.
    by rewrite Hmk. }
  split.
  { intros filepath filename sub w f1 e f2 Hacc dest_folder candidate resolved Hmk Hmv.
    destruct (process_file_shape filepath filename w) as (w' & _ & _ & Hrun & _).
    destruct (accepted_run_paths filepath filename sub w f1 Hacc Hmk)
      as (_ & Hfs & Hout).
    fold dest_folder candidate resolved in Hfs, Hout.
    rewrite Hrun, Hmv in Hfs, Hout. cbn [final fst snd] in Hfs, Hout.
    exists w', (if os_exists candidate f1 then [line_exists candidate] else []).
    by rewrite Hout. }
  split.
  { intros filename e. repeat split.
    - apply LineFacts.contains_middle.
    - do 3 apply LineFacts.contains_app_r. apply LineFacts.contains_here.
      rewrite <- (PyFacts.append_nil_r (exc_str e)) at 1. apply LineFacts.startswith_app.
    - apply LineFacts.contains_app_r, LineFacts.contains_here.
      rewrite <- (PyFacts.append_nil_r filename) at 1. apply LineFacts.startswith_app. }
  split; [exact on_created_returns|].
  split; [exact dispatch_events_returns|exact dispatch_events_app].
Qed.

(** C6. An accepted file whose candidate path does not exist is moved to
    [DEST_BASE/platform/images/filename] when its extension is [.jpg] and to
    [DEST_BASE/platform/labels/filename] when it is [.txt], the filename
    unchanged.  In particular [twitter_1730912345678_0347.jpg], arriving in
    the staging directory, ends at
    [DEST_BASE/twitter/images/twitter_1730912345678_0347.jpg]. *)
Theorem destination_without_collision :
  (forall (FS : Type) (H : OS FS) filepath filename sub (w : World FS) f1,
     accepted filename sub ->
     let dest_folder := DEST_BASE +:+ "/" +:+ platform_of filename +:+ "/" +:+ sub in
     let dest_path := dest_folder +:+ "/" +:+ filename in
     os_makedirs dest_folder (fs w) = (None, f1) ->
     os_exists dest_path f1 = false ->
     let w' := final (process_file filepath filename w) in
     ((extension_of filename = IMAGE_EXT /\ sub = "images")
      \/ (extension_of filename = LABEL_EXT /\ sub = "labels"))
     /\ syscalls w' = syscalls w ++ [SysMakedirs dest_folder; SysExists dest_path;
                                     SysMove filepath dest_path]
     /\ fs w' = (os_move filepath dest_path f1).2)
  /\ (forall content,
        let filename := "twitter_1730912345678_0347.jpg" in
        let w' := final (@on_created _ PosixFS.quiet (Samples.arrival filename)
                           (Samples.world_with filename content)) in
        fs w' !! (DEST_BASE +:+ "/twitter/images/twitter_1730912345678_0347.jpg")
        = Some (File content)
        /\ fs w' !! (Samples.staging +:+ "/" +:+ filename) = None
        /\ stdout w' = ["Image moved: twitter/twitter_1730912345678_0347.jpg"]).
Proof.
  split.
  - intros FS H filepath filename sub w f1 Hacc dest_folder dest_path Hmk Hfree w'.
    destruct (accepted_run_paths filepath filename sub w f1 Hacc Hmk) as (Hcalls & Hfs & _).
    fold dest_folder dest_path in Hcalls, Hfs. rewrite Hfree in Hcalls, Hfs.
    split; [|done].
    destruct Hacc as (_ & _ & Hsub). apply NameFacts.subfolder_cases in Hsub. tauto.
  - intros content. vm_compute. done.
Qed.

(** C1, as amended. A successful placement of a regular file leaves every
    other entry of the file system in place, except an entry that sits at the
    very path the file is moved to; such an entry can only be one at the
    disambiguated path.  Whatever exists at the plain destination path is
    never that entry: a disambiguated path is chosen before the move, so the
    entry that was there is still there afterwards, next to the file that was
    placed. *)
Theorem existing_destination_survives
    (env : PosixFS.t -> PosixFS.t) filepath filename (w : World PosixFS.t) content :
  fs w !! filepath = Some (File content) ->
  @placed _ (PosixFS.os env) filepath filename w ->
  let w' := final (@process_file _ (PosixFS.os env) filepath filename w) in
  exists sub final_path,
    accepted filename sub
    /\ let dest_folder := DEST_BASE +:+ "/" +:+ platform_of filename +:+ "/" +:+ sub in
       let naive := dest_folder +:+ "/" +:+ filename in
       let disambiguated :=
         dest_folder +:+ "/" +:+ dup_filename filename (Z.quot (now w) 1000) in
       fs w' !! final_path = Some (File content)
       /\ (forall p n, p <> filepath -> p <> final_path ->
             fs w !! p = Some n -> fs w' !! p = Some n)
       /\ (forall n, fs w !! final_path = Some n -> final_path = disambiguated)
       /\ (forall n, fs w !! naive = Some n ->
             final_path <> naive
             /\ In (SysMove filepath disambiguated) (syscalls w')
             /\ (filepath <> naive -> fs w' !! naive = Some n)).
Proof.
  intros Hsrc Hplaced w'.
  destruct (placed_inv _ _ _ Hplaced) as (sub & f1 & f2 & Hacc & Hinv).
  cbv zeta in Hinv. destruct Hinv as (Hmk & Hmv & Hfs & Hcalls).
  fold w' in Hfs, Hcalls.
  destruct (NameFacts.accepted_shape _ _ Hacc) as (base & ext & _ & _ & _ & _ & _ & Hsub).
  destruct (NameFacts.dup_filename_accepted filename sub (Z.quot (now w) 1000) Hacc)
    as ((_ & Hplat' & _) & _ & _).
  pose proof Hacc as (_ & Hplat & _).
  destruct (NameFacts.join_dest (platform_of filename) sub filename Hplat Hsub
              (NameFacts.platform_relative _ Hplat)) as [Hfolder Hnaive].
  destruct (NameFacts.join_dest (platform_of filename) sub
              (dup_filename filename (Z.quot (now w) 1000)) Hplat Hsub
              (NameFacts.platform_relative _ Hplat')) as [_ Hdup].
  rewrite Hnaive, Hdup in Hmv, Hcalls. rewrite Hfolder in Hmk, Hcalls.
  set (dest_folder := DEST_BASE +:+ "/" +:+ platform_of filename +:+ "/" +:+ sub) in *.
  assert (Hflat : forall name,
            DEST_BASE +:+ "/" +:+ platform_of filename +:+ "/" +:+ sub +:+ "/" +:+ name
            = dest_folder +:+ "/" +:+ name)
    by (intros name; unfold dest_folder; by rewrite !PyFacts.append_assoc).
  rewrite !Hflat in Hmv, Hcalls.
  set (naive := dest_folder +:+ "/" +:+ filename) in *.
  set (disambiguated :=
         dest_folder +:+ "/" +:+ dup_filename filename (Z.quot (now w) 1000)) in *.
  cbn [os_makedirs os_move os_exists PosixFS.os] in Hmk, Hmv, Hcalls.
  pose proof (fun p n => PosixFacts.makedirs_preserves _ _ _ _ p n Hmk) as Hpres.
  destruct (PosixFacts.move_file _ _ _ _ content (Hpres _ _ Hsrc) Hmv)
    as (final_path & Hf2 & Hwhere).
  exists sub, final_path. split; [done|]. cbv zeta.
  fold dest_folder naive disambiguated. rewrite Hfs, Hf2.
  split; [apply lookup_insert_eq|].
  assert (Hframe : forall p n, p <> filepath -> p <> final_path ->
            fs w !! p = Some n ->
            <[final_path := File content]> (delete filepath f1) !! p = Some n).
  { intros p n Hp1 Hp2 Hp. rewrite lookup_insert_ne, lookup_delete_ne by done. eauto. }
  split; [exact Hframe|].
  split.
  { intros n Hn. pose proof (Hpres _ _ Hn) as Hn1.
    destruct Hwhere as [[Heq _]|[_ Hnone]]; [|congruence].
    destruct (PosixFS.exists_ naive f1) eqn:Hex; [done|].
    subst final_path. unfold PosixFS.exists_ in Hex. by rewrite Hn1 in Hex. }
  intros n Hn. pose proof (Hpres _ _ Hn) as Hn1.
  assert (Hex : PosixFS.exists_ naive f1 = true)
    by (unfold PosixFS.exists_; by rewrite Hn1).
  rewrite Hex in Hmv, Hcalls, Hwhere.
  assert (Hne : final_path <> naive).
  { destruct Hwhere as [[-> _]|[_ Hnone]].
    - intros Heq. apply (f_equal String.length) in Heq.
      unfold disambiguated, naive in Heq. rewrite !PyFacts.length_append in Heq.
      pose proof (NameFacts.dup_filename_longer filename (Z.quot (now w) 1000)). lia.
    - intros ->. congruence. }
  split; [done|]. split.
  - rewrite Hcalls. apply in_or_app. right. cbn. auto.
  - intros Hne'. apply Hframe; done.
Qed.

(** ** The claims at concrete inputs *)

Ltac accepted_by_computation :=
  unfold accepted; split; [vm_compute; lia|split; reflexivity].

Lemma malformed_name_rejected_witness :
  let w := Samples.world_with "twitter_0347.jpg" "img" in
  @process_file _ PosixFS.quiet (Samples.staging +:+ "/twitter_0347.jpg") "twitter_0347.jpg" w
  = Returned tt (mkWorld (fs w) (now w) ["Invalid filename format: twitter_0347.jpg"] []).
Proof.
  intros w.
  apply (@malformed_name_rejected _ PosixFS.quiet
           (Samples.staging +:+ "/twitter_0347.jpg") "twitter_0347.jpg" w).
  vm_compute. lia.
Defined.

(** Scenario B of the specification: [TIKTOK_123_1.jpg]. *)
Lemma unknown_label_rejected_witness :
  let w := Samples.world_with "TIKTOK_123_1.jpg" "img" in
  @process_file _ PosixFS.quiet (Samples.staging +:+ "/TIKTOK_123_1.jpg") "TIKTOK_123_1.jpg" w
  = Returned tt (mkWorld (fs w) (now w) ["Unknown platform: tiktok"] []).
Proof.
  intros w.
  apply (@unknown_label_rejected _ PosixFS.quiet
           (Samples.staging +:+ "/TIKTOK_123_1.jpg") "TIKTOK_123_1.jpg" w).
  - vm_compute. lia.
  - reflexivity.
Defined.

Lemma extension_determines_kind_witness :
  let w := Samples.world_with "twitter_1_1.png" "img" in
  @process_file _ PosixFS.quiet (Samples.staging +:+ "/twitter_1_1.png") "twitter_1_1.png" w
  = Returned tt (mkWorld (fs w) (now w) ["Unknown file extension: .png"] []).
Proof.
  intros w.
  destruct (@extension_determines_kind _ PosixFS.quiet
              (Samples.staging +:+ "/twitter_1_1.png") "twitter_1_1.png" w)
    as (_ & _ & Hother).
  - vm_compute. lia.
  - reflexivity.
  - apply Hother; vm_compute; discriminate.
Defined.

Lemma destination_without_collision_witness :
  let filename := "twitter_1730912345678_0347.jpg" in
  let w := Samples.world_with filename "img" in
  syscalls (final (@process_file _ PosixFS.quiet (Samples.staging +:+ "/" +:+ filename) filename w))
  = [SysMakedirs "C:/Users/offrk/Desktop/dataset/twitter/images";
     SysExists "C:/Users/offrk/Desktop/dataset/twitter/images/twitter_1730912345678_0347.jpg";
     SysMove "/home/offrk/Downloads/dataset_temp/twitter_1730912345678_0347.jpg"
             "C:/Users/offrk/Desktop/dataset/twitter/images/twitter_1730912345678_0347.jpg"].
Proof.
  intros filename w.
  destruct (proj1 destination_without_collision _ PosixFS.quiet
              (Samples.staging +:+ "/" +:+ filename) filename "images" w
              (PosixFS.makedirs "C:/Users/offrk/Desktop/dataset/twitter/images" (fs w)).2)
    as (_ & Hcalls & _).
  - accepted_by_computation.
  - vm_compute. reflexivity.
  - vm_compute. reflexivity.
  - exact Hcalls.
Defined.

(** Scenario C of the specification: [reddit_1_1.txt] arrives again. *)
Lemma collision_disambiguated_once_witness :
  let w := Samples.world_once in
  syscalls (final (@process_file _ PosixFS.quiet (Samples.staging +:+ "/reddit_1_1.txt")
                     "reddit_1_1.txt" w))
  = [SysMakedirs "C:/Users/offrk/Desktop/dataset/reddit/labels";
     SysExists "C:/Users/offrk/Desktop/dataset/reddit/labels/reddit_1_1.txt";
     SysMove "/home/offrk/Downloads/dataset_temp/reddit_1_1.txt"
             "C:/Users/offrk/Desktop/dataset/reddit/labels/reddit_1_1_dup_1730912345.txt"].
Proof.
  intros w.
  destruct (@collision_disambiguated_once _ PosixFS.quiet
              (Samples.staging +:+ "/reddit_1_1.txt") "reddit_1_1.txt" "labels" w
              (PosixFS.makedirs "C:/Users/offrk/Desktop/dataset/reddit/labels" (fs w)).2)
    as (_ & _ & Hcalls & _).
  - accepted_by_computation.
  - vm_compute. reflexivity.
  - vm_compute. reflexivity.
  - exact Hcalls.
Defined.

Lemma move_only_after_checks_witness :
  let filename := "twitter_1730912345678_0347.jpg" in
  (3 <= length (Py.split "_" filename))%nat
  /\ Py.In_list (platform_of filename) PLATFORMS = true
  /\ (extension_of filename = IMAGE_EXT \/ extension_of filename = LABEL_EXT).
Proof.
  intros filename.
  destruct (@move_only_after_checks _ PosixFS.quiet
              (Samples.staging +:+ "/" +:+ filename) filename
              (Samples.world_with filename "img")) as (new & Hcalls & Hmoves).
  vm_compute in Hcalls. subst new.
  destruct (Hmoves "/home/offrk/Downloads/dataset_temp/twitter_1730912345678_0347.jpg"
              "C:/Users/offrk/Desktop/dataset/twitter/images/twitter_1730912345678_0347.jpg")
    as (_ & Hlen & Hplat & Hext).
  - right. right. left. reflexivity.
  - exact (conj Hlen (conj Hplat Hext)).
Defined.

(** Scenario D of the specification: the file is removed by another process
    during the settle delay. *)
Lemma vanished_source_discarded_witness :
  let path := Samples.staging +:+ "/twitter_1_1.jpg" in
  let w := Samples.world_with "twitter_1_1.jpg" "img" in
  @on_created _ (PosixFS.os (delete path)) (Samples.arrival "twitter_1_1.jpg") w
  = Returned tt (mkWorld ∅ (now w + 500) [] [SysSleep 500; SysExists path]).
Proof.
  intros path w.
  destruct (@vanished_source_discarded _ (PosixFS.os (delete path))
              (Samples.arrival "twitter_1_1.jpg") [] w) as [_ Hgone].
  destruct Hgone as [Hrun _].
  - reflexivity.
  - vm_compute. reflexivity.
  - rewrite Hrun. vm_compute. reflexivity.
Defined.

Lemma failures_stay_inside_the_event_witness :
  let w := Samples.world_blocked in
  stdout (final (@process_file _ PosixFS.quiet (Samples.staging +:+ "/twitter_1_1.jpg")
                   "twitter_1_1.jpg" w))
  = ["Error processing twitter_1_1.jpg: [Errno 17] File exists: 'C:/Users/offrk/Desktop/dataset/twitter/images'"].
Proof.
  intros w.
  pose proof (proj1 (proj2 (@failures_stay_inside_the_event _ PosixFS.quiet))
                (Samples.staging +:+ "/twitter_1_1.jpg") "twitter_1_1.jpg" "images" w
                (PosixFS.FileExistsError "C:/Users/offrk/Desktop/dataset/twitter/images")
                (PosixFS.makedirs "C:/Users/offrk/Desktop/dataset/twitter/images" (fs w)).2)
    as Hcaught.
  rewrite Hcaught.
  - reflexivity.
  - accepted_by_computation.
  - vm_compute. reflexivity.
Defined.

Lemma disambiguation_keeps_classification_witness :
  accepted "twitter_1730912345678_0347_dup_1730912346.jpg" "images".
Proof.
  apply (@disambiguation_keeps_classification _ PosixFS.quiet
           "twitter_1730912345678_0347.jpg" "images" 1730912346
           "" (Samples.world_with "x" "y")).
  accepted_by_computation.
Defined.

Lemma existing_destination_survives_witness :
  let w := Samples.world_once in
  let w' := final (@process_file _ (PosixFS.os id) (Samples.staging +:+ "/reddit_1_1.txt")
                     "reddit_1_1.txt" w) in
  fs w' !! "C:/Users/offrk/Desktop/dataset/reddit/labels/reddit_1_1.txt"
  = Some (File "first").
Proof.
  intros w w'.
  destruct (existing_destination_survives id (Samples.staging +:+ "/reddit_1_1.txt")
              "reddit_1_1.txt" w "second")
    as (sub & final_path & Hacc & _ & _ & _ & Hnaive).
  - vm_compute. reflexivity.
  - exists ["File already exists: C:/Users/offrk/Desktop/dataset/reddit/labels/reddit_1_1.txt"].
    vm_compute. reflexivity.
  - destruct Hacc as (_ & _ & Hsub). vm_compute in Hsub. injection Hsub as <-.
    destruct (Hnaive (File "first")) as (_ & _ & Hkept).
    + vm_compute. reflexivity.
    + apply Hkept. vm_compute. discriminate.
Defined.

(** ** Where the specification and the program part *)

(** Against C1 as stated: [reddit_1_1.txt] arrives for the third time within
    one second.  The placement succeeds, and the file that the second arrival
    left at the disambiguated path is replaced by the third. *)
Lemma disambiguated_destination_overwritten :
  let w := Samples.world_twice in
  let w' := final (@on_created _ PosixFS.quiet (Samples.arrival "reddit_1_1.txt") w) in
  let taken := "C:/Users/offrk/Desktop/dataset/reddit/labels/reddit_1_1_dup_1730912346.txt" in
  fs w !! taken = Some (File "second")
  /\ fs w' !! taken = Some (File "third")
  /\ stdout w'
     = ["File already exists: C:/Users/offrk/Desktop/dataset/reddit/labels/reddit_1_1.txt";
        "Label moved: reddit/reddit_1_1.txt"].
Proof. vm_compute. done. Qed.

(** Against C9 as stated: [TIKTOK_123_1.jpg] is rejected, and the only line
    printed for it does not hold its filename. *)
Lemma unknown_platform_line_lacks_filename :
  let filename := "TIKTOK_123_1.jpg" in
  let w := Samples.world_with filename "img" in
  let w' := final (@on_created _ PosixFS.quiet (Samples.arrival filename) w) in
  fs w' = fs w
  /\ stdout w' = ["Unknown platform: tiktok"]
  /\ forall line, In line (stdout w') -> Py.contains line filename = false.
Proof.
  vm_compute. split; [done|]. split; [done|]. intros line [<-|[]]. done.
Qed.

(** * More of the program *)

(** ** Letter case and the filename tests *)

Module CaseFacts.
Import Py PyFacts os_path.

Lemma lower_char_idem d : lower_char (lower_char d) = lower_char d.
Proof. destruct d as [[] [] [] [] [] [] [] []]; reflexivity. Qed.

Lemma lower_char_dot d : Ascii.eqb (lower_char d) "." = Ascii.eqb d ".".
Proof. destruct d as [[] [] [] [] [] [] [] []]; reflexivity. Qed.

Lemma lower_char_slash d : Ascii.eqb (lower_char d) "/" = Ascii.eqb d "/".
Proof. destruct d as [[] [] [] [] [] [] [] []]; reflexivity. Qed.

Lemma lower_idem s : lower (lower s) = lower s.
Proof.
  induction s as [|d s IH]; [reflexivity|].
  cbn [lower]. by rewrite lower_char_idem, IH.
Qed.

Lemma split_lower s : split "_" (lower s) = map lower (split "_" s).
Proof.
  induction s as [|d s IH]; [reflexivity|].
  cbn [lower split]. rewrite NameFacts.lower_char_underscore, IH.
  destruct (Ascii.eqb d "_"); [reflexivity|].
  by destruct (split "_" s).
Qed.

Lemma take_lower n s : take n (lower s) = lower (take n s).
Proof.
  revert s. induction n as [|n IH]; intros [|d s]; try reflexivity.
  cbn [lower take]. by rewrite IH.
Qed.

Lemma drop_lower n s : drop n (lower s) = lower (drop n s).
Proof. revert s. induction n as [|n IH]; intros [|d s]; try reflexivity. apply IH. Qed.

Lemma rfind_from_lower c s i last :
  (forall d, Ascii.eqb (lower_char d) c = Ascii.eqb d c) ->
  rfind_from c (lower s) i last = rfind_from c s i last.
Proof.
  intros Hc. revert i last. induction s as [|d s IH]; intros i last; [reflexivity|].
  cbn [lower rfind_from]. by rewrite Hc, IH.
Qed.

Lemma all_char_dot_lower s : all_char "." (lower s) = all_char "." s.
Proof.
  induction s as [|d s IH]; [reflexivity|].
  cbn [lower all_char]. by rewrite lower_char_dot, IH.
Qed.

(** [splitext] commutes with [lower]. *)
Lemma splitext_lower p :
  splitext (lower p) = (lower (splitext p).1, lower (splitext p).2).
Proof.
  unfold splitext, rfind, slice, slice_to, slice_from, sep, extsep.
  rewrite !rfind_from_lower by (apply lower_char_dot || apply lower_char_slash).
  rewrite drop_lower, !take_lower, drop_lower, all_char_dot_lower.
  by destruct (_ && _).
Qed.

Lemma hd_map_lower l : hd "" (map lower l) = lower (hd "" l).
Proof. by destruct l. Qed.

Lemma platform_of_lower filename : platform_of (lower filename) = platform_of filename.
Proof.
  unfold platform_of, parts_of. by rewrite split_lower, hd_map_lower, lower_idem.
Qed.

Lemma extension_of_lower filename : extension_of (lower filename) = extension_of filename.
Proof. unfold extension_of. rewrite splitext_lower. cbn [snd]. apply lower_idem. Qed.

Lemma parts_of_lower filename :
  length (parts_of (lower filename)) = length (parts_of filename).
Proof. unfold parts_of. by rewrite split_lower, length_map. Qed.

End CaseFacts.

(** X1. Two filenames that differ in letter case only pass the same tests:
    they have the same number of segments, the same platform and the same
    extension, so one is accepted exactly when the other is, for the same
    folder. *)
Theorem classification_ignores_case (a b : string) :
  Py.lower a = Py.lower b ->
  length (Py.split "_" a) = length (Py.split "_" b)
  /\ platform_of a = platform_of b
  /\ extension_of a = extension_of b
  /\ forall sub, accepted a sub <-> accepted b sub.
Proof.
  intros Hcase.
  assert (Hlen : length (parts_of a) = length (parts_of b))
    by (rewrite <- (CaseFacts.parts_of_lower a), <- (CaseFacts.parts_of_lower b);
        by rewrite Hcase).
  assert (Hplat : platform_of a = platform_of b)
    by (rewrite <- (CaseFacts.platform_of_lower a), <- (CaseFacts.platform_of_lower b);
        by rewrite Hcase).
  assert (Hext : extension_of a = extension_of b)
    by (rewrite <- (CaseFacts.extension_of_lower a), <- (CaseFacts.extension_of_lower b);
        by rewrite Hcase).
  split; [exact Hlen|]. split; [exact Hplat|]. split; [exact Hext|].
  intros sub. unfold accepted. by rewrite Hlen, Hplat, Hext.
Qed.

Lemma classification_ignores_case_witness :
  accepted "Twitter_1730912345678_0347.JPG" "images"
  <-> accepted "twitter_1730912345678_0347.jpg" "images".
Proof.
  apply (classification_ignores_case
           "Twitter_1730912345678_0347.JPG" "twitter_1730912345678_0347.jpg").
  reflexivity.
Defined.

(** ** Segments after the platform *)

Module SegmentFacts.
Import Py PyFacts os_path.

Lemma hd_split_prefix c p rest :
  count c p = O -> hd "" (split c (p +:+ String c rest)) = p.
Proof.
  induction p as [|d p IH]; intros Hc.
  - change ("" +:+ String c rest) with (String c rest). cbn [split].
    by rewrite Ascii.eqb_refl.
  - rewrite append_cons. cbn [split count] in *.
    destruct (Ascii.eqb d c); [lia|]. specialize (IH ltac:(lia)).
    pose proof (length_split c (p +:+ String c rest)) as Hlen.
    destruct (split c (p +:+ String c rest)) as [|q qs]; [discriminate|].
    cbn [hd] in *. by f_equal.
Qed.

Lemma rfind_absent c s : count c s = O -> rfind c s = -1.
Proof. apply rfind_from_absent. Qed.

(** A platform of the registry: lower-case letters only. *)
Lemma platform_plain p :
  In p PLATFORMS ->
  lower p = p /\ count "_" p = O /\ count sep p = O /\ all_char extsep p = false
  /\ Py.In_list p PLATFORMS = true.
Proof.
  intros Hin. repeat (destruct Hin as [<-|Hin]); try done; repeat split; reflexivity.
Qed.

End SegmentFacts.

(** X2. The segments after the platform are not inspected: a name made of a
    platform of the registry, an underscore, any text, an underscore, any
    text and a supported extension is accepted, as long as the two texts hold
    no path separator; they may be empty, and need not be numbers. *)
Theorem later_segments_not_validated (platform a b : string) :
  In platform PLATFORMS ->
  Py.count os_path.sep a = O -> Py.count os_path.sep b = O ->
  let stem := platform +:+ "_" +:+ a +:+ "_" +:+ b in
  accepted (stem +:+ IMAGE_EXT) "images"
  /\ accepted (stem +:+ LABEL_EXT) "labels"
  /\ platform_of (stem +:+ IMAGE_EXT) = platform
  /\ platform_of (stem +:+ LABEL_EXT) = platform.
Proof.
  intros Hin Ha Hb stem.
  destruct (SegmentFacts.platform_plain platform Hin) as (Hlow & Hund & Hsep & Hdots & Hreg).
  assert (Hplat : forall ext, platform_of (stem +:+ ext) = platform).
  { intros ext. unfold platform_of, parts_of, stem.
    rewrite !PyFacts.append_assoc.
    change ("_" +:+ a +:+ "_" +:+ b +:+ ext) with (String "_" (a +:+ "_" +:+ b +:+ ext)).
    by rewrite SegmentFacts.hd_split_prefix, Hlow. }
  assert (Hlen : forall ext, (3 <= length (parts_of (stem +:+ ext)))%nat).
  { intros ext. unfold parts_of, stem. rewrite PyFacts.length_split, !PyFacts.count_app.
    change (Py.count "_" "_") with 1%nat. lia. }
  assert (Hstem_sep : Py.count os_path.sep stem = O).
  { unfold stem. rewrite !PyFacts.count_app, Hsep, Ha, Hb. reflexivity. }
  assert (Hext : forall e, Py.count os_path.extsep e = O -> Py.count os_path.sep e = O ->
            (os_path.splitext (stem +:+ String os_path.extsep e)).2 = String os_path.extsep e).
  { intros e He1 He2. rewrite PathFacts.splitext_app_dot by done.
    unfold last_component. rewrite SegmentFacts.rfind_absent by done.
    change (Z.to_nat (-1 + 1)) with O. cbn [Py.drop].
    unfold stem. by rewrite PyFacts.all_char_app, Hdots. }
  assert (Himg : extension_of (stem +:+ IMAGE_EXT) = IMAGE_EXT).
  { unfold extension_of. change IMAGE_EXT with (String os_path.extsep "jpg") at 1.
    by rewrite Hext. }
  assert (Hlbl : extension_of (stem +:+ LABEL_EXT) = LABEL_EXT).
  { unfold extension_of. change LABEL_EXT with (String os_path.extsep "txt") at 1.
    by rewrite Hext. }
  unfold accepted. rewrite !Hplat, Himg, Hlbl. repeat split; auto.
Qed.

Lemma later_segments_not_validated_witness : accepted "twitter__.jpg" "images".
Proof.
  apply (later_segments_not_validated "twitter" "" ""); [|reflexivity..].
  left. reflexivity.
Defined.

(** ** Where files are moved to *)

Module MoveFacts.
Import Py PyFacts os_path.

Lemma basename_no_sep p : count sep (basename p) = O.
Proof.
  unfold basename, slice_from, rfind.
  destruct (rfind_from_spec sep p 0 (-1)) as [[-> Hc]|(a & e & -> & Hc & ->)].
  - change (Z.to_nat (-1 + 1)) with O. by cbn [drop].
  - replace (Z.to_nat (0 + Z.of_nat (String.length a) + 1))
      with (String.length (a +:+ String sep "")) by (rewrite length_append; cbn; lia).
    replace (a +:+ String sep e) with ((a +:+ String sep "") +:+ e)
      by (by rewrite append_assoc).
    by rewrite drop_app_length.
Qed.

Lemma dup_filename_no_sep filename t :
  count sep filename = O -> count sep (dup_filename filename t) = O.
Proof.
  intros Hc. unfold dup_filename.
  pose proof (PathFacts.splitext_app filename) as Happ.
  destruct (splitext filename) as [base ext]. cbn [fst snd] in Happ.
  rewrite <- Happ, count_app in Hc.
  rewrite <- (append_assoc "_dup_"), count_app, count_app.
  rewrite NameFacts.count_marker by auto. lia.
Qed.

End MoveFacts.

Section Moves.
Context {FS : Type} `{!OS FS}.
Implicit Types (w : World FS) (filepath filename : string).

Lemma process_file_moves filepath filename w :
  Py.count os_path.sep filename = O ->
  exists w' new,
    process_file filepath filename w = Returned tt w'
    /\ syscalls w' = syscalls w ++ new
    /\ forall src dst, In (SysMove src dst) new ->
         src = filepath /\ in_destination_tree dst.
Proof.
  intros Hsep.
  destruct (Nat.ltb_spec (length (parts_of filename)) 3) as [Hlt|Hge].
  { rewrite process_file_malformed by done. eexists _, []. cbn [syscalls].
    split; [done|]. split; [by rewrite app_nil_r|]. intros ?? []. }
  destruct (Py.In_list (platform_of filename) PLATFORMS) eqn:Hplat.
  2:{ rewrite process_file_unknown_platform by done. eexists _, []. cbn [syscalls].
      split; [done|]. split; [by rewrite app_nil_r|]. intros ?? []. }
  destruct (subfolder_of (extension_of filename)) as [sub|] eqn:Hsub.
  2:{ rewrite process_file_unknown_extension by done. eexists _, []. cbn [syscalls].
      split; [done|]. split; [by rewrite app_nil_r|]. intros ?? []. }
  assert (Hacc : accepted filename sub) by done.
  destruct (NameFacts.accepted_shape _ _ Hacc) as (base & ext & _ & _ & _ & _ & _ & Hsubs).
  set (dest_folder := DEST_BASE +:+ "/" +:+ platform_of filename +:+ "/" +:+ sub).
  destruct (os_makedirs dest_folder (fs w)) as [[e|] f1] eqn:Hmk.
  { destruct (NameFacts.join_dest (platform_of filename) sub filename Hplat Hsubs
                (NameFacts.platform_relative _ Hplat)) as [Hfolder _].
    rewrite (process_file_accepted _ _ sub) by done.
    unfold accepted_outcome. cbv zeta. rewrite Hfolder. fold dest_folder. rewrite Hmk.
    eexists _, _. split; [reflexivity|]. cbn [syscalls].
    split; [reflexivity|]. intros ?? [[=]|[]]. }
  destruct (process_file_shape filepath filename w) as (w' & _ & _ & Hrun & _).
  destruct (accepted_run_paths filepath filename sub w f1 Hacc Hmk) as (Hcalls & _).
  rewrite Hrun in Hcalls. cbn [final] in Hcalls. fold dest_folder in Hcalls.
  eexists _, _. split; [exact Hrun|]. split; [exact Hcalls|].
  intros src dst [[=]|[[=]|[[= <- <-]|[]]]]. split; [done|].
  exists (platform_of filename), sub.
  destruct (os_exists (dest_folder +:+ "/" +:+ filename) f1).
  - exists (dup_filename filename (Z.quot (now w) 1000)).
    split; [by apply NameFacts.In_PLATFORMS|]. split; [done|].
    split; [by apply MoveFacts.dup_filename_no_sep|].
    unfold dest_folder. by rewrite !PyFacts.append_assoc.
  - exists filename.
    split; [by apply NameFacts.In_PLATFORMS|]. split; [done|]. split; [done|].
    unfold dest_folder. by rewrite !PyFacts.append_assoc.
Qed.

Lemma on_created_moves event w :
  exists w' new,
    on_created event w = Returned tt w'
    /\ syscalls w' = syscalls w ++ new
    /\ forall src dst, In (SysMove src dst) new ->
         is_directory event = false /\ src_path event = src /\ in_destination_tree dst.
Proof.
  destruct (is_directory event) eqn:Hdir.
  { exists w, []. unfold on_created. rewrite Hdir.
    split; [done|]. split; [by rewrite app_nil_r|]. intros ?? []. }
  destruct (os_exists (src_path event) (os_settle (fs w))) eqn:Hthere.
  - rewrite on_created_present by done.
    destruct (process_file_moves (src_path event) (os_path.basename (src_path event))
                (mkWorld (os_settle (fs w)) (now w + 500) (stdout w)
                   (syscalls w ++ [SysSleep 500; SysExists (src_path event)]))
                (MoveFacts.basename_no_sep _))
      as (w' & new & Hrun & Hcalls & Hmoves).
    cbn [syscalls] in Hcalls. rewrite <- app_assoc in Hcalls.
    exists w', ([SysSleep 500; SysExists (src_path event)] ++ new).
    split; [done|]. split; [done|].
    intros src dst [[=]|[[=]|Hin]]. destruct (Hmoves _ _ Hin) as [-> Htree]. done.
  - rewrite on_created_vanished by done. eexists _, _. cbn [syscalls].
    split; [done|]. split; [done|]. intros ?? [[=]|[[=]|[]]].
Qed.

Lemma dispatch_events_moves events w :
  exists w' new,
    dispatch_events events w = Returned tt w'
    /\ syscalls w' = syscalls w ++ new
    /\ forall src dst, In (SysMove src dst) new ->
         (exists event, In event events /\ is_directory event = false
                        /\ src_path event = src)
         /\ in_destination_tree dst.
Proof.
  revert w. induction events as [|event rest IH]; intros w.
  { exists w, []. split; [done|]. split; [by rewrite app_nil_r|]. intros ?? []. }
  destruct (on_created_moves event w) as (w1 & new1 & Hrun1 & Hcalls1 & Hmoves1).
  destruct (IH w1) as (w2 & new2 & Hrun2 & Hcalls2 & Hmoves2).
  exists w2, (new1 ++ new2).
  split; [by rewrite (dispatch_events_cons _ _ _ _ Hrun1)|].
  split; [by rewrite Hcalls2, Hcalls1, app_assoc|].
  intros src dst Hin. apply in_app_or in Hin as [Hin|Hin].
  - destruct (Hmoves1 _ _ Hin) as (Hfile & Hsrc & Htree).
    split; [|done]. exists event. split; [by left|done].
  - destruct (Hmoves2 _ _ Hin) as ((ev & Hev & Hfile & Hsrc) & Htree).
    split; [|done]. exists ev. split; [by right|done].
Qed.

End Moves.

(** X3. Whatever the events, the handler moves only files that an event for
    a non-directory announced, and moves them nowhere but directly into the
    [images] or [labels] folder of a platform of the registry, under a name
    without path separator. *)
Theorem only_announced_files_move {FS : Type} `{!OS FS}
    (events : list FileSystemEvent) (w : World FS) :
  exists new,
    syscalls (final (dispatch_events events w)) = syscalls w ++ new
    /\ forall src dst, In (SysMove src dst) new ->
         (exists event, In event events /\ is_directory event = false
                        /\ src_path event = src)
         /\ exists platform sub name,
              In platform PLATFORMS
              /\ (sub = "images" \/ sub = "labels")
              /\ Py.count os_path.sep name = O
              /\ dst = DEST_BASE +:+ "/" +:+ platform +:+ "/" +:+ sub +:+ "/" +:+ name.
Proof.
  destruct (dispatch_events_moves events w) as (w' & new & Hrun & Hcalls & Hmoves).
  exists new. rewrite Hrun. cbn [final]. split; [done|]. exact Hmoves.
Qed.

Lemma only_announced_files_move_witness :
  exists platform sub name,
    In platform PLATFORMS
    /\ (sub = "images" \/ sub = "labels")
    /\ Py.count os_path.sep name = O
    /\ "C:/Users/offrk/Desktop/dataset/twitter/images/twitter_1730912345678_0347.jpg"
       = DEST_BASE +:+ "/" +:+ platform +:+ "/" +:+ sub +:+ "/" +:+ name.
Proof.
  destruct (@only_announced_files_move _ PosixFS.quiet
              [Samples.arrival "twitter_1730912345678_0347.jpg"]
              (Samples.world_with "twitter_1730912345678_0347.jpg" "img"))
    as (new & Hcalls & Hmoves).
  vm_compute in Hcalls. subst new.
  destruct (Hmoves "/home/offrk/Downloads/dataset_temp/twitter_1730912345678_0347.jpg"
              "C:/Users/offrk/Desktop/dataset/twitter/images/twitter_1730912345678_0347.jpg")
    as [_ Htree].
  - do 4 right. left. reflexivity.
  - exact Htree.
Defined.

(** ** Files are moved, never lost *)

Module KeepFacts.
Import PosixFS.

Lemma rename_error_unchanged src dst (m m' : t) e :
  rename src dst m = (Some e, m') -> m' = m.
Proof.
  unfold rename. intros Heq.
  repeat match type of Heq with
         | context [match ?x with _ => _ end] => destruct x
         end; inversion Heq; by subst.
Qed.

(** A call of [shutil.move] that raises leaves the file system as it was. *)
Lemma move_error_unchanged src dst (m m' : t) e :
  move src dst m = (Some e, m') -> m' = m.
Proof.
  unfold move. intros Heq.
  destruct (isdir dst m).
  - destruct (String.eqb src dst); [discriminate|].
    destruct (exists_ _ m); [inversion Heq; by subst|].
    by apply rename_error_unchanged in Heq.
  - by apply rename_error_unchanged in Heq.
Qed.

Lemma append_inv_tail s t u : s +:+ u = t +:+ u -> s = t.
Proof.
  revert t. induction s as [|c s IH]; intros [|d t] Heq; [done| | |].
  - apply (f_equal String.length) in Heq.
    rewrite !PyFacts.length_append in Heq. cbn [String.length] in Heq. lia.
  - apply (f_equal String.length) in Heq.
    rewrite !PyFacts.length_append in Heq. cbn [String.length] in Heq. lia.
  - rewrite !PyFacts.append_cons in Heq. injection Heq as -> Heq. f_equal. by apply IH.
Qed.

(** The staging folder is none of the destination folders. *)
Lemma watch_folder_apart home platform sub :
  In platform PLATFORMS -> sub = "images" \/ sub = "labels" ->
  WATCH_FOLDER home <> DEST_BASE +:+ "/" +:+ platform +:+ "/" +:+ sub.
Proof.
  intros Hin Hsub Heq.
  assert (Hc : Py.contains (WATCH_FOLDER home) "/Downloads/dataset_temp" = true).
  { unfold WATCH_FOLDER.
    rewrite <- (PyFacts.append_nil_r "/Downloads/dataset_temp") at 1.
    apply LineFacts.contains_middle. }
  rewrite Heq in Hc.
  repeat (destruct Hin as [<-|Hin]); try done;
    destruct Hsub as [-> | ->]; vm_compute in Hc; discriminate.
Qed.

End KeepFacts.

Section Keep.
Context (env : PosixFS.t -> PosixFS.t).
Implicit Types (w : World PosixFS.t) (filepath filename : string).

(** A regular file that was placed: where it went, and what the file system
    looks like afterwards. *)
Lemma placed_file_lands filepath filename w content :
  fs w !! filepath = Some (File content) ->
  @placed _ (PosixFS.os env) filepath filename w ->
  exists sub f1 final_path,
    accepted filename sub
    /\ let dest_folder := DEST_BASE +:+ "/" +:+ platform_of filename +:+ "/" +:+ sub in
       let naive := dest_folder +:+ "/" +:+ filename in
       let target :=
         if PosixFS.exists_ naive f1
         then dest_folder +:+ "/" +:+ dup_filename filename (Z.quot (now w) 1000)
         else naive in
       PosixFS.makedirs dest_folder (fs w) = (None, f1)
       /\ (forall p n, fs w !! p = Some n -> f1 !! p = Some n)
       /\ fs (final (@process_file _ (PosixFS.os env) filepath filename w))
          = <[final_path := File content]> (delete filepath f1)
       /\ ((final_path = target /\ PosixFS.isdir target f1 = false)
           \/ (PosixFS.isdir target f1 = true /\ f1 !! final_path = None)).
Proof.
  intros Hsrc Hplaced.
  destruct (placed_inv _ _ _ Hplaced) as (sub & f1 & f2 & Hacc & Hinv).
  cbv zeta in Hinv. destruct Hinv as (Hmk & Hmv & Hfs & _).
  destruct (NameFacts.accepted_shape _ _ Hacc) as (base & ext & _ & _ & _ & _ & _ & Hsub).
  destruct (NameFacts.dup_filename_accepted filename sub (Z.quot (now w) 1000) Hacc)
    as ((_ & Hplat' & _) & _ & _).
  pose proof Hacc as (_ & Hplat & _).
  destruct (NameFacts.join_dest (platform_of filename) sub filename Hplat Hsub
              (NameFacts.platform_relative _ Hplat)) as [Hfolder Hnaive].
  destruct (NameFacts.join_dest (platform_of filename) sub
              (dup_filename filename (Z.quot (now w) 1000)) Hplat Hsub
              (NameFacts.platform_relative _ Hplat')) as [_ Hdup].
  rewrite Hnaive, Hdup in Hmv. rewrite Hfolder in Hmk.
  set (dest_folder := DEST_BASE +:+ "/" +:+ platform_of filename +:+ "/" +:+ sub) in *.
  assert (Hflat : forall name,
            DEST_BASE +:+ "/" +:+ platform_of filename +:+ "/" +:+ sub +:+ "/" +:+ name
            = dest_folder +:+ "/" +:+ name)
    by (intros name; unfold dest_folder; by rewrite !PyFacts.append_assoc).
  rewrite !Hflat in Hmv.
  cbn [os_makedirs os_move os_exists PosixFS.os] in Hmk, Hmv.
  pose proof (fun p n => PosixFacts.makedirs_preserves _ _ _ _ p n Hmk) as Hpres.
  destruct (PosixFacts.move_file _ _ _ _ content (Hpres _ _ Hsrc) Hmv)
    as (final_path & Hf2 & Hwhere).
  exists sub, f1, final_path. split; [done|]. cbv zeta. fold dest_folder.
  split; [done|]. split; [done|]. split; [by rewrite Hfs|done].
Qed.

(** A run that did not print the success message left the source where it
    was. *)
Lemma not_placed_keeps_source filepath filename w content :
  fs w !! filepath = Some (File content) ->
  ~ @placed _ (PosixFS.os env) filepath filename w ->
  fs (final (@process_file _ (PosixFS.os env) filepath filename w)) !! filepath
  = Some (File content).
Proof.
  intros Hsrc Hnot.
  destruct (Nat.ltb_spec (length (parts_of filename)) 3) as [Hlt|Hge].
  { by rewrite process_file_malformed. }
  destruct (Py.In_list (platform_of filename) PLATFORMS) eqn:Hplat.
  2:{ by rewrite process_file_unknown_platform. }
  destruct (subfolder_of (extension_of filename)) as [sub|] eqn:Hsub.
  2:{ by rewrite process_file_unknown_extension. }
  assert (Hacc : accepted filename sub) by done.
  unfold placed in Hnot.
  rewrite (process_file_accepted _ _ sub) in * by done. cbn [final] in *.
  unfold accepted_outcome in *. cbv zeta in *.
  cbn [os_makedirs os_move os_exists PosixFS.os] in *.
  destruct (PosixFS.makedirs _ (fs w)) as [[e|] f1] eqn:Hmk; cbn [fs].
  { eapply PosixFacts.makedirs_preserves; eauto. }
  destruct (PosixFS.move filepath _ f1) as [[e|] f2] eqn:Hmv; cbn [fs stdout] in *.
  - apply KeepFacts.move_error_unchanged in Hmv as ->.
    eapply PosixFacts.makedirs_preserves; eauto.
  - exfalso. apply Hnot. eexists. by rewrite <- app_assoc.
Qed.

End Keep.

(** X4. On the concrete file system a regular file handed to [process_file]
    is never lost: when the run prints its success message the content is at
    the path the file was moved to and the source path is gone; otherwise
    the source is still in place with its content. *)
Theorem file_moved_or_kept
    (env : PosixFS.t -> PosixFS.t) filepath filename (w : World PosixFS.t) content :
  fs w !! filepath = Some (File content) ->
  let w' := final (@process_file _ (PosixFS.os env) filepath filename w) in
  (@placed _ (PosixFS.os env) filepath filename w ->
     exists final_path,
       fs w' !! final_path = Some (File content)
       /\ (final_path <> filepath -> fs w' !! filepath = None))
  /\ (~ @placed _ (PosixFS.os env) filepath filename w ->
      fs w' !! filepath = Some (File content)).
Proof.
  intros Hsrc w'. split.
  - intros Hplaced.
    destruct (placed_file_lands env _ _ _ _ Hsrc Hplaced)
      as (sub & f1 & final_path & _ & Hland).
    cbv zeta in Hland. destruct Hland as (_ & _ & Hfs & _).
    exists final_path. subst w'. rewrite Hfs.
    split; [apply lookup_insert_eq|].
    intros Hne. rewrite lookup_insert_ne by done. apply lookup_delete_eq.
  - intros Hnot. by apply not_placed_keeps_source.
Qed.

Lemma file_moved_or_kept_witness :
  let w := Samples.world_blocked in
  fs (final (@process_file _ (PosixFS.os id) (Samples.staging +:+ "/twitter_1_1.jpg")
               "twitter_1_1.jpg" w))
    !! (Samples.staging +:+ "/twitter_1_1.jpg")
  = Some (File "img").
Proof.
  intros w.
  apply (file_moved_or_kept id (Samples.staging +:+ "/twitter_1_1.jpg")
           "twitter_1_1.jpg" w "img").
  - vm_compute. reflexivity.
  - intros [lines Hout]. vm_compute in Hout.
    destruct lines as [|l [|l' lines]]; discriminate.
Defined.

(** X5. The staging folder is none of the destination folders, so a file of
    the staging folder never is its own destination: when it is placed while
    something sits at the plain destination path, that entry is still there
    afterwards, and the new file is at another path. *)
Theorem staged_file_spares_destination
    (env : PosixFS.t -> PosixFS.t) home filename (w : World PosixFS.t) content :
  let filepath := WATCH_FOLDER home +:+ "/" +:+ filename in
  fs w !! filepath = Some (File content) ->
  @placed _ (PosixFS.os env) filepath filename w ->
  let w' := final (@process_file _ (PosixFS.os env) filepath filename w) in
  exists sub final_path,
    accepted filename sub
    /\ let naive :=
         (DEST_BASE +:+ "/" +:+ platform_of filename +:+ "/" +:+ sub) +:+ "/" +:+ filename in
       filepath <> naive
       /\ fs w' !! final_path = Some (File content)
       /\ forall n, fs w !! naive = Some n ->
            final_path <> naive /\ fs w' !! naive = Some n.
Proof.
  intros filepath Hsrc Hplaced w'.
  destruct (placed_file_lands env _ _ _ _ Hsrc Hplaced)
    as (sub & f1 & final_path & Hacc & Hland).
  cbv zeta in Hland. destruct Hland as (_ & Hpres & Hfs & Hwhere).
  destruct (NameFacts.accepted_shape _ _ Hacc) as (base & ext & _ & _ & _ & _ & _ & Hsub).
  pose proof Hacc as (_ & Hplat & _). apply NameFacts.In_PLATFORMS in Hplat.
  exists sub, final_path. split; [done|]. cbv zeta.
  set (dest_folder := DEST_BASE +:+ "/" +:+ platform_of filename +:+ "/" +:+ sub) in *.
  set (naive := dest_folder +:+ "/" +:+ filename) in *.
  assert (Hapart : filepath <> naive).
  { intros Heq. apply KeepFacts.append_inv_tail in Heq.
    by apply (KeepFacts.watch_folder_apart home (platform_of filename) sub). }
  split; [done|]. subst w'. rewrite Hfs.
  split; [apply lookup_insert_eq|].
  intros n Hn. pose proof (Hpres _ _ Hn) as Hn1.
  assert (Hex : PosixFS.exists_ naive f1 = true)
    by (unfold PosixFS.exists_; by rewrite Hn1).
  rewrite Hex in Hwhere.
  assert (Hne : final_path <> naive).
  { destruct Hwhere as [[-> _]|[_ Hnone]].
    - intros Heq. apply (f_equal String.length) in Heq.
      unfold naive in Heq. rewrite !PyFacts.length_append in Heq.
      pose proof (NameFacts.dup_filename_longer filename (Z.quot (now w) 1000)). lia.
    - intros ->. congruence. }
  split; [done|].
  rewrite lookup_insert_ne, lookup_delete_ne by done. done.
Qed.

Lemma staged_file_spares_destination_witness :
  let w := Samples.world_once in
  fs (final (@process_file _ (PosixFS.os id)
               (WATCH_FOLDER "/home/offrk/" +:+ "/reddit_1_1.txt") "reddit_1_1.txt" w))
    !! "C:/Users/offrk/Desktop/dataset/reddit/labels/reddit_1_1.txt"
  = Some (File "first").
Proof.
  intros w.
  destruct (staged_file_spares_destination id "/home/offrk/" "reddit_1_1.txt" w "second")
    as (sub & final_path & Hacc & _ & _ & Hnaive).
  - vm_compute. reflexivity.
  - exists ["File already exists: C:/Users/offrk/Desktop/dataset/reddit/labels/reddit_1_1.txt"].
    vm_compute. reflexivity.
  - destruct Hacc as (_ & _ & Hsub). vm_compute in Hsub. injection Hsub as <-.
    apply (Hnaive (File "first")). vm_compute. reflexivity.
Defined.

(** ** [setup_folders] *)

Section SetupRuns.
Context {FS : Type} `{!OS FS}.
Implicit Types (w : World FS).

(** The folders of the calls made are the first ones of the list, and all of
    them when no call raised. *)
Lemma makedirs_in_turn_prefix (folders : list string) (f f' : FS) r called :
  makedirs_in_turn folders f = (r, f', called) ->
  (exists rest, folders = called ++ rest) /\ (r = None -> called = folders).
Proof.
  revert f r f' called. induction folders as [|d rest IH]; intros f r f' called Hrun.
  - injection Hrun as <- <- <-. split; [by exists []|done].
  - cbn [makedirs_in_turn] in Hrun.
    destruct (os_makedirs d f) as [[e|] f1].
    + injection Hrun as <- <- <-. split; [by exists rest|done].
    + destruct (makedirs_in_turn rest f1) as [[r1 f2] called1] eqn:Hrest.
      injection Hrun as <- <- <-.
      destruct (IH _ _ _ _ Hrest) as [[rest' Hpre] Hall].
      split; [exists rest'; by rewrite Hpre|]. intros Hr. by rewrite Hall.
Qed.

Lemma makedirs_run path w :
  makedirs path w
  = match os_makedirs path (fs w) with
    | (None, f') =>
        Returned tt (mkWorld f' (now w) (stdout w) (syscalls w ++ [SysMakedirs path]))
    | (Some e, f') =>
        Raised e (mkWorld f' (now w) (stdout w) (syscalls w ++ [SysMakedirs path]))
    end.
Proof.
  unfold makedirs, lift_call, called, set_fs.
  by destruct (os_makedirs path (fs w)) as [[e|] f'].
Qed.

Lemma bind_run {A B : Type} (m : M (World FS) A) (k : A -> M (World FS) B) w :
  (m ≫= k) w
  = match m w with
    | Returned a w' => k a w'
    | Raised e w' => Raised e w'
    end.
Proof. reflexivity. Qed.

Lemma print_run line w :
  print line w = Returned tt (mkWorld (fs w) (now w) (stdout w ++ [line]) (syscalls w)).
Proof. reflexivity. Qed.

(** The loop of [setup_folders] over a list of platforms. *)
Lemma setup_loop (platforms : list string) w r f' called :
  makedirs_in_turn
    (flat_map (fun platform =>
                 [os_path.join DEST_BASE [platform; "images"];
                  os_path.join DEST_BASE [platform; "labels"]]) platforms) (fs w)
  = (r, f', called) ->
  let o := for_each platforms (fun platform =>
             makedirs (os_path.join DEST_BASE [platform; "images"]) ;;
             makedirs (os_path.join DEST_BASE [platform; "labels"]) ;;
             print ("   " +:+ platform +:+ ": images/ and labels/")) w in
  fs (final o) = f'
  /\ syscalls (final o) = syscalls w ++ map SysMakedirs called
  /\ match r with
     | None => exists w', o = Returned tt w'
     | Some e => exists w', o = Raised e w'
     end.
Proof.
  revert w r f' called. induction platforms as [|platform rest IH];
    intros w r f' called Hrun o.
  - injection Hrun as <- <- <-. subst o. cbn [for_each final map].
    rewrite app_nil_r. repeat split. by exists w.
  - cbn [flat_map app makedirs_in_turn] in Hrun. subst o. cbn [for_each].
    rewrite !bind_run, makedirs_run.
    destruct (os_makedirs (os_path.join DEST_BASE [platform; "images"]) (fs w))
      as [[e|] f1].
    { injection Hrun as <- <- <-. cbn [final fs syscalls map]. repeat split. eauto. }
    cbn beta iota. rewrite ?bind_run, makedirs_run. cbn [fs now stdout syscalls].
    destruct (os_makedirs (os_path.join DEST_BASE [platform; "labels"]) f1)
      as [[e|] f2].
    { injection Hrun as <- <- <-. cbn [final fs syscalls map].
      rewrite <- app_assoc. repeat split. eauto. }
    destruct (makedirs_in_turn _ f2) as [[r1 f3] called1] eqn:Hrest.
    injection Hrun as <- <- <-.
    rewrite !print_run. cbn [fs now stdout syscalls].
    match goal with
    | |- context [for_each rest ?body ?w1] =>
        destruct (IH w1 r1 f3 called1 Hrest) as (Hfs & Hcalls & Hres)
    end.
    cbv zeta in Hfs, Hcalls, Hres. cbn [fs syscalls] in Hcalls.
    split; [exact Hfs|]. split; [|exact Hres].
    rewrite Hcalls. cbn [map]. by rewrite <- !app_assoc.
Qed.

(** [setup_folders] does to the file system what [os.makedirs] does on each
    of its folders in turn, up to the first call that raises. *)
Lemma setup_folders_run home w r f' called :
  makedirs_in_turn (setup_targets home) (fs w) = (r, f', called) ->
  let o := setup_folders home w in
  fs (final o) = f'
  /\ syscalls (final o) = syscalls w ++ map SysMakedirs called
  /\ match r with
     | None => exists w', o = Returned tt w'
     | Some e => exists w', o = Raised e w'
     end.
Proof.
  intros Hrun o. subst o. unfold setup_targets in Hrun.
  cbn [makedirs_in_turn] in Hrun. unfold setup_folders.
  rewrite bind_run, print_run, bind_run, makedirs_run.
  cbn [fs now stdout syscalls].
  destruct (os_makedirs (WATCH_FOLDER home) (fs w)) as [[e|] f1].
  { injection Hrun as <- <- <-. cbn [final fs syscalls map]. repeat split. eauto. }
  destruct (makedirs_in_turn _ f1) as [[r1 f2] called1] eqn:Hrest.
  injection Hrun as <- <- <-.
  rewrite bind_run, print_run. cbn [fs now stdout syscalls]. rewrite bind_run.
  match goal with
  | |- context [for_each PLATFORMS ?body ?w1] =>
      destruct (setup_loop PLATFORMS w1 r1 f2 called1 Hrest) as (Hfs & Hcalls & Hres);
      cbv zeta in Hfs, Hcalls, Hres; cbn [fs syscalls] in Hcalls;
      destruct (for_each PLATFORMS body w1) as [[] w2|e w2] eqn:Hloop
  end.
  - cbn [final] in *. rewrite print_run. cbn [fs syscalls final].
    split; [exact Hfs|]. split; [by rewrite Hcalls, <- app_assoc|].
    destruct r1 as [e|]; [by destruct Hres|eauto].
  - cbn [final] in *.
    split; [exact Hfs|]. split; [by rewrite Hcalls, <- app_assoc|].
    destruct r1 as [e'|]; [|by destruct Hres].
    destruct Hres as [w' [= <- <-]]. eauto.
Qed.

End SetupRuns.

(** X6. [setup_folders] creates its folders in turn: the staging folder,
    then the [images] and the [labels] folder of each platform.  It makes no
    other system call; the first call of [os.makedirs] that raises ends it
    with that exception, the folders after it are not attempted, and when no
    call raises every folder of the list was handled. *)
Theorem setup_folders_in_turn {FS : Type} `{!OS FS} home (w : World FS) r f' called :
  makedirs_in_turn (setup_targets home) (fs w) = (r, f', called) ->
  let o := setup_folders home w in
  fs (final o) = f'
  /\ syscalls (final o) = syscalls w ++ map SysMakedirs called
  /\ (exists rest, setup_targets home = called ++ rest)
  /\ match r with
     | None => (exists w', o = Returned tt w') /\ called = setup_targets home
     | Some e => exists w', o = Raised e w'
     end.
Proof.
  intros Hrun o.
  destruct (setup_folders_run home w r f' called Hrun) as (Hfs & Hcalls & Hres).
  destruct (makedirs_in_turn_prefix _ _ _ _ _ Hrun) as [Hprefix Hall].
  split; [exact Hfs|]. split; [exact Hcalls|]. split; [exact Hprefix|].
  destruct r as [e|]; [exact Hres|]. split; [exact Hres|by apply Hall].
Qed.

(** The destination folder of twitter images is taken by a regular file: the
    second call raises, and the labels folder of twitter is not attempted. *)
Lemma setup_folders_in_turn_witness :
  let o := @setup_folders _ PosixFS.quiet "/home/offrk" Samples.world_blocked in
  syscalls (final o)
  = [SysMakedirs "/home/offrk/Downloads/dataset_temp";
     SysMakedirs "C:/Users/offrk/Desktop/dataset/twitter/images"]
  /\ exists w', o = Raised (PosixFS.FileExistsError
                              "C:/Users/offrk/Desktop/dataset/twitter/images") w'.
Proof.
  intros o.
  destruct (@setup_folders_in_turn _ PosixFS.quiet "/home/offrk" Samples.world_blocked
              (Some (PosixFS.FileExistsError "C:/Users/offrk/Desktop/dataset/twitter/images"))
              (@makedirs_in_turn _ PosixFS.quiet (setup_targets "/home/offrk")
                 (fs Samples.world_blocked)).1.2
              ["/home/offrk/Downloads/dataset_temp";
               "C:/Users/offrk/Desktop/dataset/twitter/images"])
    as (_ & Hcalls & _ & Hres).
  - vm_compute. reflexivity.
  - split; [exact Hcalls|exact Hres].
Defined.

(** ** [setup_folders] on the concrete file system *)

Module SetupFacts.
Import PosixFS.

Lemma mkdir_each_success_dirs leaf dirs (m m' : t) :
  mkdir_each leaf dirs m = (None, m') ->
  forall x, In x dirs -> m' !! x = Some Dir.
Proof.
  revert m. induction dirs as [|d ds IH]; intros m Hrun x Hin; [destruct Hin|].
  cbn [mkdir_each] in Hrun.
  destruct (m !! d) as [[c|]|] eqn:Hd; [discriminate| |].
  - destruct Hin as [<-|Hin]; [|eauto].
    eapply PosixFacts.mkdir_each_preserves; eauto.
  - destruct Hin as [<-|Hin]; [|eauto].
    eapply PosixFacts.mkdir_each_preserves; [exact Hrun|]. apply lookup_insert_eq.
Qed.

Lemma mkdir_each_noop leaf dirs (m : t) :
  (forall x, In x dirs -> m !! x = Some Dir) -> mkdir_each leaf dirs m = (None, m).
Proof.
  induction dirs as [|d ds IH]; intros Hall; [reflexivity|].
  cbn [mkdir_each]. rewrite (Hall d) by (by left). apply IH.
  intros x Hin. apply Hall. by right.
Qed.

Lemma makedirs_success_dirs path (m m' : t) :
  makedirs path m = (None, m') -> forall x, In x (folder_chain path) -> m' !! x = Some Dir.
Proof.
  unfold makedirs. destruct (String.eqb path ""); [discriminate|].
  apply mkdir_each_success_dirs.
Qed.

Lemma makedirs_noop path (m : t) :
  path <> "" -> (forall x, In x (folder_chain path) -> m !! x = Some Dir) ->
  makedirs path m = (None, m).
Proof.
  intros Hne Hall. unfold makedirs.
  destruct (String.eqb_spec path ""); [done|]. by apply mkdir_each_noop.
Qed.

Section InTurn.
Context (env : t -> t).

Lemma in_turn_success folders (m m' : t) called :
  @makedirs_in_turn _ (os env) folders m = (None, m', called) ->
  (forall p n, m !! p = Some n -> m' !! p = Some n)
  /\ (forall d, In d folders -> forall x, In x (folder_chain d) -> m' !! x = Some Dir).
Proof.
  revert m called. induction folders as [|d rest IH]; intros m called Hrun.
  - injection Hrun as <- _. split; [done|]. intros ? [].
  - cbn [makedirs_in_turn os_makedirs os] in Hrun.
    destruct (makedirs d m) as [[e|] m1] eqn:Hmk; [discriminate|].
    destruct (@makedirs_in_turn _ (os env) rest m1) as [[r1 m2] called1] eqn:Hrest.
    injection Hrun as -> <- _.
    destruct (IH _ _ Hrest) as [Hpres Hdirs].
    split.
    + intros p n Hp. apply Hpres. eapply PosixFacts.makedirs_preserves; eauto.
    + intros d' [<-|Hin] x Hx; [|eauto].
      apply Hpres. eapply makedirs_success_dirs; eauto.
Qed.

Lemma in_turn_noop folders (m : t) :
  (forall d, In d folders ->
     d <> "" /\ forall x, In x (folder_chain d) -> m !! x = Some Dir) ->
  @makedirs_in_turn _ (os env) folders m = (None, m, folders).
Proof.
  induction folders as [|d rest IH]; intros Hall; [reflexivity|].
  cbn [makedirs_in_turn os_makedirs os].
  destruct (Hall d ltac:(by left)) as [Hne Hd].
  rewrite (makedirs_noop d m Hne Hd).
  rewrite IH; [reflexivity|]. intros d' Hin. apply Hall. by right.
Qed.

End InTurn.

Lemma setup_targets_nonempty home d : In d (setup_targets home) -> d <> "".
Proof.
  intros [<-|Hin].
  - intros Heq. apply (f_equal String.length) in Heq.
    unfold WATCH_FOLDER in Heq. rewrite PyFacts.length_append in Heq. cbn in Heq. lia.
  - apply in_flat_map in Hin as (platform & Hp & Hd).
    repeat (destruct Hp as [<-|Hp]); try done;
      destruct Hd as [<-|[<-|[]]]; done.
Qed.

(** The destination folder of an accepted file is one of the folders of
    [setup_folders]. *)
Lemma dest_folder_is_target home filename sub :
  accepted filename sub ->
  In (DEST_BASE +:+ "/" +:+ platform_of filename +:+ "/" +:+ sub) (setup_targets home).
Proof.
  intros Hacc.
  destruct (NameFacts.accepted_shape _ _ Hacc) as (base & ext & _ & _ & _ & _ & _ & Hsub).
  pose proof Hacc as (_ & Hplat & _).
  destruct (NameFacts.join_dest (platform_of filename) sub filename Hplat Hsub
              (NameFacts.platform_relative _ Hplat)) as [<- _].
  right. apply in_flat_map. exists (platform_of filename).
  split; [by apply NameFacts.In_PLATFORMS|].
  destruct Hsub as [-> | ->]; [by left|by right; left].
Qed.

End SetupFacts.

Section SetupPosix.
Context (env : PosixFS.t -> PosixFS.t).
Implicit Types (w : World PosixFS.t).

(** After a run of [setup_folders] that returned, nothing that existed has
    changed, and every folder of the list is a directory, with the folders
    above it. *)
Lemma setup_folders_done home w w' :
  @setup_folders _ (PosixFS.os env) home w = Returned tt w' ->
  (forall p n, fs w !! p = Some n -> fs w' !! p = Some n)
  /\ (forall d, In d (setup_targets home) ->
        forall x, In x (folder_chain d) -> fs w' !! x = Some Dir).
Proof.
  intros Hrun.
  destruct (@makedirs_in_turn _ (PosixFS.os env) (setup_targets home) (fs w))
    as [[r f'] called] eqn:Hturn.
  destruct (@setup_folders_run _ (PosixFS.os env) home w r f' called Hturn)
    as (Hfs & _ & Hres).
  rewrite Hrun in Hfs, Hres. cbn [final] in Hfs. subst f'.
  destruct r as [e|]; [by destruct Hres|].
  by apply (SetupFacts.in_turn_success env _ _ _ _ Hturn).
Qed.

(** On a file system where the folders are all there, [setup_folders]
    returns and changes nothing. *)
Lemma setup_folders_again home w :
  (forall d, In d (setup_targets home) ->
     forall x, In x (folder_chain d) -> fs w !! x = Some Dir) ->
  exists w', @setup_folders _ (PosixFS.os env) home w = Returned tt w' /\ fs w' = fs w.
Proof.
  intros Hdirs.
  assert (Hturn : @makedirs_in_turn _ (PosixFS.os env) (setup_targets home) (fs w)
                  = (None, fs w, setup_targets home)).
  { apply SetupFacts.in_turn_noop. intros d Hd.
    split; [by apply (SetupFacts.setup_targets_nonempty home)|by apply Hdirs]. }
  destruct (@setup_folders_run _ (PosixFS.os env) home w _ _ _ Hturn)
    as (Hfs & _ & w' & Hrun).
  exists w'. split; [done|]. by rewrite Hrun in Hfs.
Qed.

End SetupPosix.

Lemma returned_final {W : Type} (o : Outcome W unit) :
  is_returned o = true -> o = Returned tt (final o).
Proof. by destruct o as [[] w|e w]. Qed.

(** Settles [o = Returned tt (final o)] for a closed run [o] by running it. *)
Ltac by_running_setup :=
  match goal with
  | |- ?o = Returned tt _ =>
      let H := fresh in
      assert (H : is_returned o = true) by (vm_compute; reflexivity);
      exact (returned_final o H)
  end.

(** X7. On the concrete file system a run of [setup_folders] that returns
    leaves the staging folder and the [images] and [labels] folder of every
    platform as directories, and changes no entry that existed before. *)
Theorem setup_creates_every_folder
    (env : PosixFS.t -> PosixFS.t) home (w w' : World PosixFS.t) :
  @setup_folders _ (PosixFS.os env) home w = Returned tt w' ->
  PosixFS.isdir (WATCH_FOLDER home) (fs w') = true
  /\ (forall platform sub, In platform PLATFORMS -> sub = "images" \/ sub = "labels" ->
        PosixFS.isdir (DEST_BASE +:+ "/" +:+ platform +:+ "/" +:+ sub) (fs w') = true)
  /\ (forall p n, fs w !! p = Some n -> fs w' !! p = Some n).
Proof.
  intros Hrun. destruct (setup_folders_done env home w w' Hrun) as [Hpres Hdirs].
  assert (Hdir : forall d, In d (setup_targets home) -> PosixFS.isdir d (fs w') = true).
  { intros d Hd. unfold PosixFS.isdir. rewrite (Hdirs d Hd d); [done|].
    unfold folder_chain. apply in_or_app. right. by left. }
  split; [apply Hdir; by left|]. split; [|exact Hpres].
  intros platform sub Hp Hsub. apply Hdir. right. apply in_flat_map.
  exists platform. split; [done|].
  repeat (destruct Hp as [<-|Hp]); try done;
    destruct Hsub as [-> | ->]; (by left) || (by right; left).
Qed.

Lemma setup_creates_every_folder_witness :
  let w := Samples.world_with "twitter_1_1.jpg" "img" in
  let w' := final (@setup_folders _ (PosixFS.os id) "/home/offrk" w) in
  PosixFS.isdir "C:/Users/offrk/Desktop/dataset/snapchat/labels" (fs w') = true.
Proof.
  intros w w'.
  destruct (setup_creates_every_folder id "/home/offrk" w w') as (_ & Hdirs & _).
  - by_running_setup.
  - apply (Hdirs "snapchat" "labels"); [|by right].
    do 9 right. left. reflexivity.
Defined.

(** X8. Right after a run of [setup_folders] that returned, [process_file]
    finds the destination folder of every accepted file in place:
    [os.makedirs] raises nothing and changes nothing, and the run goes on to
    the existence check and to [shutil.move]. *)
Theorem folders_ready_after_setup
    (env : PosixFS.t -> PosixFS.t) home (w w1 : World PosixFS.t) filepath filename sub :
  @setup_folders _ (PosixFS.os env) home w = Returned tt w1 ->
  accepted filename sub ->
  let dest_folder := DEST_BASE +:+ "/" +:+ platform_of filename +:+ "/" +:+ sub in
  PosixFS.makedirs dest_folder (fs w1) = (None, fs w1)
  /\ exists target,
       syscalls (final (@process_file _ (PosixFS.os env) filepath filename w1))
       = syscalls w1 ++ [SysMakedirs dest_folder;
                         SysExists (dest_folder +:+ "/" +:+ filename);
                         SysMove filepath target].
Proof.
  intros Hrun Hacc dest_folder.
  destruct (setup_folders_done env home w w1 Hrun) as [_ Hdirs].
  pose proof (SetupFacts.dest_folder_is_target home filename sub Hacc) as Hin.
  fold dest_folder in Hin.
  assert (Hmk : PosixFS.makedirs dest_folder (fs w1) = (None, fs w1)).
  { apply SetupFacts.makedirs_noop.
    - by apply (SetupFacts.setup_targets_nonempty home).
    - by apply Hdirs. }
  split; [exact Hmk|].
  destruct (@accepted_run_paths _ (PosixFS.os env) filepath filename sub w1 (fs w1) Hacc Hmk)
    as (Hcalls & _).
  eexists. exact Hcalls.
Qed.

Lemma folders_ready_after_setup_witness :
  let w := Samples.world_with "twitter_1_1.jpg" "img" in
  let w1 := final (@setup_folders _ (PosixFS.os id) "/home/offrk" w) in
  PosixFS.makedirs "C:/Users/offrk/Desktop/dataset/twitter/images" (fs w1) = (None, fs w1).
Proof.
  intros w w1.
  destruct (folders_ready_after_setup id "/home/offrk" w w1
              (Samples.staging +:+ "/twitter_1_1.jpg") "twitter_1_1.jpg" "images")
    as [Hmk _].
  - by_running_setup.
  - accepted_by_computation.
  - exact Hmk.
Defined.

(** X9. [setup_folders] may be run again: on the concrete file system a
    second run right after one that returned returns as well and leaves the
    file system as it is. *)
Theorem setup_folders_idempotent
    (env : PosixFS.t -> PosixFS.t) home (w w1 : World PosixFS.t) :
  @setup_folders _ (PosixFS.os env) home w = Returned tt w1 ->
  exists w2,
    @setup_folders _ (PosixFS.os env) home w1 = Returned tt w2 /\ fs w2 = fs w1.
Proof.
  intros Hrun. destruct (setup_folders_done env home w w1 Hrun) as [_ Hdirs].
  by apply setup_folders_again.
Qed.

Lemma setup_folders_idempotent_witness :
  let w := Samples.world_with "twitter_1_1.jpg" "img" in
  let w1 := final (@setup_folders _ (PosixFS.os id) "/home/offrk" w) in
  exists w2,
    @setup_folders _ (PosixFS.os id) "/home/offrk" w1 = Returned tt w2 /\ fs w2 = fs w1.
Proof.
  intros w w1. apply (setup_folders_idempotent id "/home/offrk" w w1).
  by_running_setup.
Defined.

(** ** [print_statistics] *)

Section StatisticsRuns.
Context {FS : Type} `{!OS FS} `{!OSListing FS}.
Implicit Types (w : World FS).

(** One turn of the loop. *)
Lemma statistics_of_platform_run totals platform w :
  statistics_of_platform totals platform w
  = let images_folder := os_path.join DEST_BASE [platform; "images"] in
    let labels_folder := os_path.join DEST_BASE [platform; "labels"] in
    match folder_count images_folder IMAGE_EXT (fs w) with
    | inl e => Raised e (called (SysExists images_folder) w)
    | inr images =>
        match folder_count labels_folder LABEL_EXT (fs w) with
        | inl e =>
            Raised e (called (SysExists labels_folder) (called (SysExists images_folder) w))
        | inr labels =>
            Returned (totals.1 + images, totals.2 + labels)%nat
              (mkWorld (fs w) (now w)
                 (stdout w ++
                  (if (0 <? images)%nat || (0 <? labels)%nat
                   then [statistics_line (PyText.upper platform) images labels]
                   else []))
                 (syscalls w ++ [SysExists images_folder; SysExists labels_folder]))
        end
    end.
Proof.
  unfold statistics_of_platform, folder_count, statistics_line,
    path_exists, listdir, print, called, mbind, M_bind, mret, M_ret.
  cbv zeta. cbn [fs now stdout syscalls].
  set (images_folder := os_path.join DEST_BASE [platform; "images"]).
  set (labels_folder := os_path.join DEST_BASE [platform; "labels"]).
  destruct (os_exists images_folder (fs w)); cbn [fs now stdout syscalls].
  all: try (destruct (os_listdir images_folder (fs w)) as [e|names];
            cbn [fs now stdout syscalls]; [reflexivity|]).
  all: destruct (os_exists labels_folder (fs w)); cbn [fs now stdout syscalls].
  all: try (destruct (os_listdir labels_folder (fs w)) as [e|names'];
            cbn [fs now stdout syscalls]; [reflexivity|]).
  all: match goal with
       | |- context [(0 <? ?a)%nat || (0 <? ?b)%nat] =>
           destruct ((0 <? a)%nat || (0 <? b)%nat)
       end;
       cbn [fs now stdout syscalls];
       rewrite <- ?app_assoc, ?app_nil_r; reflexivity.
Qed.

Lemma countable_counts platform (f : FS) :
  countable platform f ->
  folder_count (os_path.join DEST_BASE [platform; "images"]) IMAGE_EXT f
  = inr (image_count platform f)
  /\ folder_count (os_path.join DEST_BASE [platform; "labels"]) LABEL_EXT f
     = inr (label_count platform f).
Proof.
  intros [[n Hn] [n' Hn']]. unfold image_count, label_count, count_in.
  by rewrite Hn, Hn'.
Qed.

(** The loop over platforms that can all be counted. *)
Lemma statistics_loop_counted (platforms : list string) totals w :
  (forall platform, In platform platforms -> countable platform (fs w)) ->
  for_each_acc platforms totals statistics_of_platform w
  = Returned
      (totals.1 + total (map (fun platform => image_count platform (fs w)) platforms),
       totals.2 + total (map (fun platform => label_count platform (fs w)) platforms))%nat
      (mkWorld (fs w) (now w)
         (stdout w ++ statistics_rows platforms (fs w))
         (syscalls w ++ statistics_checks platforms)).
Proof.
  revert totals w. induction platforms as [|platform rest IH]; intros totals w Hall.
  - cbn [for_each_acc map total foldr statistics_rows statistics_checks flat_map].
    rewrite !app_nil_r, !Nat.add_0_r. by destruct totals, w.
  - cbn [for_each_acc]. rewrite bind_run, statistics_of_platform_run. cbv zeta.
    destruct (countable_counts platform (fs w) (Hall _ ltac:(by left))) as [-> ->].
    rewrite IH by (intros p Hp; cbn [fs]; apply Hall; by right).
    cbn [fs now stdout syscalls fst snd map total foldr
         statistics_rows statistics_checks flat_map].
    f_equal; [f_equal; unfold total; lia|].
    f_equal; by rewrite <- app_assoc.
Qed.

(** The loop reads the file system and leaves it, and the clock, alone. *)
Lemma statistics_loop_reads (platforms : list string) totals w :
  let o := for_each_acc platforms totals statistics_of_platform w in
  fs (final o) = fs w /\ now (final o) = now w.
Proof.
  revert totals w. induction platforms as [|platform rest IH]; intros totals w; [done|].
  cbn [for_each_acc]. cbv zeta. rewrite bind_run, statistics_of_platform_run. cbv zeta.
  destruct (folder_count _ IMAGE_EXT (fs w)) as [e|images]; [done|].
  destruct (folder_count _ LABEL_EXT (fs w)) as [e|labels]; [done|].
  match goal with
  | |- context [for_each_acc rest ?t statistics_of_platform ?w1] =>
      destruct (IH t w1) as [Hfs Hnow]
  end.
  cbv zeta in Hfs, Hnow. by rewrite Hfs, Hnow.
Qed.

(** The loop returns only when every platform could be counted. *)
Lemma statistics_loop_returned (platforms : list string) totals w r w' :
  for_each_acc platforms totals statistics_of_platform w = Returned r w' ->
  forall platform, In platform platforms -> countable platform (fs w).
Proof.
  revert totals w. induction platforms as [|platform rest IH];
    intros totals w Hrun p Hin; [destruct Hin|].
  cbn [for_each_acc] in Hrun. rewrite bind_run, statistics_of_platform_run in Hrun.
  cbv zeta in Hrun.
  destruct (folder_count _ IMAGE_EXT (fs w)) as [e|images] eqn:Himg; [discriminate|].
  destruct (folder_count _ LABEL_EXT (fs w)) as [e|labels] eqn:Hlbl; [discriminate|].
  destruct Hin as [<-|Hin].
  - split; eauto.
  - apply (IH _ _ Hrun p Hin).
Qed.

End StatisticsRuns.

Section StatisticsPrinted.
Context {FS : Type} `{!OS FS} `{!OSListing FS}.
Implicit Types (w : World FS).

(** [print_statistics], around its loop. *)
Lemma print_statistics_run w :
  print_statistics w
  = match for_each_acc PLATFORMS (O, O) statistics_of_platform
            (mkWorld (fs w) (now w)
               (stdout w ++ [PyText.newline +:+ PyText.repeat_char "=" 60;
                             "CURRENT DATASET STATISTICS";
                             PyText.repeat_char "=" 60])
               (syscalls w)) with
    | Returned totals w1 =>
        Returned tt
          (mkWorld (fs w1) (now w1)
             (stdout w1 ++ [PyText.repeat_char "-" 60;
                            statistics_line "TOTAL" totals.1 totals.2;
                            PyText.repeat_char "=" 60 +:+ PyText.newline])
             (syscalls w1))
    | Raised e w1 => Raised e w1
    end.
Proof.
  unfold print_statistics.
  rewrite bind_run, print_run, bind_run, print_run, bind_run, print_run, bind_run.
  cbn [fs now stdout syscalls]. rewrite <- !app_assoc. cbn [app].
  destruct (for_each_acc PLATFORMS (O, O) statistics_of_platform _) as [totals w1|e w1];
    [|reflexivity].
  rewrite bind_run, print_run, bind_run, print_run, print_run.
  cbn [fs now stdout syscalls]. rewrite <- !app_assoc. reflexivity.
Qed.

End StatisticsPrinted.

(** X10. When every folder of the table exists as a directory that can be
    listed, or does not exist, [print_statistics] returns and has printed:
    its heading, one row for each platform that has at least one counted
    file and none for the others, in the order of [PLATFORMS], and a [TOTAL]
    row whose two numbers are the sums of the counts of all platforms. *)
Theorem print_statistics_table {FS : Type} `{!OS FS} `{!OSListing FS} (w : World FS) :
  (forall platform, In platform PLATFORMS -> countable platform (fs w)) ->
  print_statistics w
  = Returned tt
      (mkWorld (fs w) (now w)
         (stdout w
          ++ [PyText.newline +:+ PyText.repeat_char "=" 60;
              "CURRENT DATASET STATISTICS";
              PyText.repeat_char "=" 60]
          ++ statistics_rows PLATFORMS (fs w)
          ++ [PyText.repeat_char "-" 60;
              statistics_line "TOTAL"
                (total (map (fun platform => image_count platform (fs w)) PLATFORMS))
                (total (map (fun platform => label_count platform (fs w)) PLATFORMS));
              PyText.repeat_char "=" 60 +:+ PyText.newline])
         (syscalls w ++ statistics_checks PLATFORMS)).
Proof.
  intros Hall. rewrite print_statistics_run, statistics_loop_counted by done.
  cbn [fs now stdout syscalls fst snd]. by rewrite <- !app_assoc.
Qed.

(** X11. [print_statistics] only reads: whether it returns or raises, the
    file system and the clock are as before.  It returns exactly when each
    of the twenty folders can be counted; a folder that exists and cannot be
    listed makes it raise, as the function catches nothing. *)
Theorem print_statistics_reads {FS : Type} `{!OS FS} `{!OSListing FS} (w : World FS) :
  fs (final (print_statistics w)) = fs w
  /\ now (final (print_statistics w)) = now w
  /\ ((exists w', print_statistics w = Returned tt w')
      <-> forall platform, In platform PLATFORMS -> countable platform (fs w)).
Proof.
  rewrite print_statistics_run.
  set (w0 := mkWorld (fs w) (now w) _ (syscalls w)).
  destruct (statistics_loop_reads PLATFORMS (O, O) w0) as [Hfs Hnow].
  cbv zeta in Hfs, Hnow.
  destruct (for_each_acc PLATFORMS (O, O) statistics_of_platform w0)
    as [totals w1|e w1] eqn:Hloop; cbn [final fs now] in *.
  - split; [done|]. split; [done|]. split; [|eauto].
    intros _. apply (statistics_loop_returned PLATFORMS (O, O) w0 totals w1 Hloop).
  - split; [done|]. split; [done|]. split; [by intros [w' [=]]|].
    intros Hall.
    rewrite (statistics_loop_counted PLATFORMS (O, O) w0) in Hloop by done.
    discriminate.
Qed.

Lemma print_statistics_table_witness :
  stdout (final (@print_statistics _ PosixFS.quiet _ Samples.world_collected))
  = [PyText.newline +:+ PyText.repeat_char "=" 60;
     "CURRENT DATASET STATISTICS";
     PyText.repeat_char "=" 60;
     "  TWITTER      Images:    2  Labels:    1";
     PyText.repeat_char "-" 60;
     "  TOTAL        Images:    2  Labels:    1";
     PyText.repeat_char "=" 60 +:+ PyText.newline].
Proof.
  rewrite (@print_statistics_table _ PosixFS.quiet _ Samples.world_collected).
  - vm_compute. reflexivity.
  - intros platform Hin.
    repeat (destruct Hin as [<-|Hin]); try done;
      (split; eexists; vm_compute; reflexivity).
Defined.

Lemma print_statistics_reads_witness :
  ~ exists w', @print_statistics _ PosixFS.quiet _ Samples.world_blocked = Returned tt w'.
Proof.
  intros Hret.
  destruct (@print_statistics_reads _ PosixFS.quiet _ Samples.world_blocked)
    as (_ & _ & Hiff).
  destruct (proj1 Hiff Hret "twitter") as [[n Hn] _].
  - left. reflexivity.
  - vm_compute in Hn. discriminate.
Defined.

(** ** Statistics on the concrete file system *)

Module CountFacts.
Import PosixFS PosixDir.

Lemma count_entries_cons folder ext k v entries :
  count_entries folder ext ((k, v) :: entries)
  = (contribution folder ext k + count_entries folder ext entries)%nat.
Proof.
  unfold count_entries, contribution. cbn [omap list_omap fst].
  destruct (child_name folder k) as [name|]; [|reflexivity].
  cbn [List.filter]. by destruct (PyText.endswith name ext).
Qed.

Lemma count_entries_perm folder ext l l' :
  l ≡ₚ l' -> count_entries folder ext l = count_entries folder ext l'.
Proof.
  induction 1 as [|[k v] l l' _ IH|[k v] [k' v'] l|l l' l'' _ IH1 _ IH2].
  - reflexivity.
  - by rewrite !count_entries_cons, IH.
  - rewrite !count_entries_cons. lia.
  - by rewrite IH1.
Qed.

Lemma count_entries_insert folder ext (m : t) k v :
  m !! k = None ->
  count_entries folder ext (map_to_list (<[k := v]> m))
  = (contribution folder ext k + count_entries folder ext (map_to_list m))%nat.
Proof.
  intros Hk. rewrite (count_entries_perm _ _ _ _ (map_to_list_insert m k v Hk)).
  apply count_entries_cons.
Qed.

Lemma count_entries_delete folder ext (m : t) k v :
  m !! k = Some v ->
  count_entries folder ext (map_to_list m)
  = (contribution folder ext k + count_entries folder ext (map_to_list (delete k m)))%nat.
Proof.
  intros Hk. rewrite <- (count_entries_perm _ _ _ _ (map_to_list_delete m k v Hk)).
  apply count_entries_cons.
Qed.

Lemma child_name_inside folder name :
  name <> "" -> Py.count os_path.sep name = O ->
  child_name folder (folder +:+ "/" +:+ name) = Some name.
Proof.
  intros Hne Hsep. unfold child_name.
  replace (folder +:+ "/" +:+ name) with ((folder +:+ "/") +:+ name)
    by (by rewrite PyFacts.append_assoc).
  rewrite LineFacts.startswith_app.
  replace (String.length folder + 1)%nat with (String.length (folder +:+ "/"))
    by (rewrite PyFacts.length_append; reflexivity).
  rewrite PyFacts.drop_app_length, Hsep.
  by destruct (String.eqb_spec name "").
Qed.

(** What [print_statistics] counts in a folder that is a directory. *)
Lemma count_in_dir env folder ext (m : t) :
  m !! folder = Some Dir ->
  @count_in _ (os env) listing folder ext m = count_entries folder ext (map_to_list m).
Proof.
  intros Hdir. unfold count_in, folder_count.
  cbn [os_exists os os_listdir listing]. unfold exists_, listdir. by rewrite Hdir.
Qed.

End CountFacts.

(** X12. The statistics count by the spelling of the name.  On the concrete
    file system, when an accepted file from outside its destination folder
    is placed under its own name, the number [print_statistics] shows for
    that folder goes up by one if the name ends with the extension exactly as
    [IMAGE_EXT] (or [LABEL_EXT]) spells it, and stays as it is otherwise: a
    file that [process_file] accepted for its extension in capitals is in
    the folder and is not counted. *)
Theorem placed_file_counted_by_name
    (env : PosixFS.t -> PosixFS.t) filepath filename sub (w : World PosixFS.t) content :
  accepted filename sub ->
  let dest_folder := DEST_BASE +:+ "/" +:+ platform_of filename +:+ "/" +:+ sub in
  fs w !! filepath = Some (File content) ->
  Py.count os_path.sep filename = O ->
  PosixFS.makedirs dest_folder (fs w) = (None, fs w) ->
  fs w !! (dest_folder +:+ "/" +:+ filename) = None ->
  PosixDir.child_name dest_folder filepath = None ->
  @placed _ (PosixFS.os env) filepath filename w ->
  let w' := final (@process_file _ (PosixFS.os env) filepath filename w) in
  let counted (ext : string) : nat :=
    if PyText.endswith filename ext then 1%nat else 0%nat in
  (sub = "images" ->
     @image_count _ (PosixFS.os env) _ (platform_of filename) (fs w')
     = (@image_count _ (PosixFS.os env) _ (platform_of filename) (fs w)
        + counted IMAGE_EXT)%nat)
  /\ (sub = "labels" ->
      @label_count _ (PosixFS.os env) _ (platform_of filename) (fs w')
      = (@label_count _ (PosixFS.os env) _ (platform_of filename) (fs w)
         + counted LABEL_EXT)%nat).
Proof.
  intros Hacc dest_folder Hsrc Hsep Hmk Hfree Hout Hplaced w' counted.
  destruct (placed_file_lands env _ _ _ _ Hsrc Hplaced)
    as (sub' & f1 & final_path & Hacc' & Hland).
  assert (sub' = sub) as ->.
  { destruct Hacc as (_ & _ & H1), Hacc' as (_ & _ & H2). congruence. }
  cbv zeta in Hland. fold dest_folder in Hland.
  destruct Hland as (Hmk' & _ & Hfs & Hwhere). fold w' in Hfs.
  assert (f1 = fs w) as -> by congruence.
  set (naive := dest_folder +:+ "/" +:+ filename) in *.
  assert (Hex : PosixFS.exists_ naive (fs w) = false)
    by (unfold PosixFS.exists_; by rewrite Hfree).
  rewrite Hex in Hwhere.
  assert (final_path = naive) as ->.
  { destruct Hwhere as [[-> _]|[Hdir _]]; [done|].
    unfold PosixFS.isdir in Hdir. by rewrite Hfree in Hdir. }
  assert (Hdir : fs w !! dest_folder = Some Dir).
  { apply (SetupFacts.makedirs_success_dirs dest_folder (fs w) (fs w) Hmk).
    unfold folder_chain. apply in_or_app. right. by left. }
  assert (Hne1 : naive <> dest_folder).
  { intros Heq. apply (f_equal String.length) in Heq.
    unfold naive in Heq. rewrite !PyFacts.length_append in Heq. cbn in Heq. lia. }
  assert (Hne2 : filepath <> dest_folder) by (intros ->; congruence).
  assert (Hne3 : filepath <> naive) by (intros ->; congruence).
  assert (Hdir' : fs w' !! dest_folder = Some Dir).
  { rewrite Hfs, lookup_insert_ne, lookup_delete_ne by done. done. }
  assert (Hname : filename <> "").
  { intros ->. destruct Hacc as (Hlen & _). vm_compute in Hlen. lia. }
  assert (Hcount : forall ext,
            @count_in _ (PosixFS.os env) _ dest_folder ext (fs w')
            = (@count_in _ (PosixFS.os env) _ dest_folder ext (fs w) + counted ext)%nat).
  { intros ext. rewrite !CountFacts.count_in_dir by done.
    rewrite Hfs, CountFacts.count_entries_insert
      by (by rewrite lookup_delete_ne).
    rewrite (CountFacts.count_entries_delete dest_folder ext (fs w) filepath _ Hsrc).
    unfold contribution at 2. rewrite Hout.
    unfold contribution, naive. rewrite CountFacts.child_name_inside by done.
    unfold counted. lia. }
  pose proof Hacc as (_ & Hplat & _).
  split; intros ->.
  - unfold image_count.
    destruct (NameFacts.join_dest (platform_of filename) "images" filename Hplat
                ltac:(by left) (NameFacts.platform_relative _ Hplat)) as [-> _].
    apply Hcount.
  - unfold label_count.
    destruct (NameFacts.join_dest (platform_of filename) "labels" filename Hplat
                ltac:(by right) (NameFacts.platform_relative _ Hplat)) as [-> _].
    apply Hcount.
Qed.

(** [twitter_1_2.JPG] is moved to the images of twitter, and the count of
    images of twitter is what it was. *)
Lemma placed_file_counted_by_name_witness :
  let w := Samples.world_capital in
  let w' := final (@process_file _ (PosixFS.os id) (Samples.staging +:+ "/twitter_1_2.JPG")
                     "twitter_1_2.JPG" w) in
  fs w' !! "C:/Users/offrk/Desktop/dataset/twitter/images/twitter_1_2.JPG" = Some (File "c")
  /\ @image_count _ (PosixFS.os id) _ "twitter" (fs w')
     = @image_count _ (PosixFS.os id) _ "twitter" (fs w).
Proof.
  intros w w'. split; [vm_compute; reflexivity|].
  destruct (placed_file_counted_by_name id (Samples.staging +:+ "/twitter_1_2.JPG")
              "twitter_1_2.JPG" "images" w "c") as [Himages _].
  - accepted_by_computation.
  - vm_compute. reflexivity.
  - reflexivity.
  - vm_compute. reflexivity.
  - vm_compute. reflexivity.
  - reflexivity.
  - exists []. vm_compute. reflexivity.
  - etransitivity; [exact (Himages eq_refl)|]. vm_compute. reflexivity.
Defined.

Module StatisticsFacts.
Import PosixFS PosixDir.

Lemma folder_count_dir env folder ext (m : t) :
  m !! folder = Some Dir ->
  exists n, @folder_count _ (os env) listing folder ext m = inr n.
Proof.
  intros Hdir. unfold folder_count.
  cbn [os_exists os os_listdir listing]. unfold exists_, listdir. rewrite Hdir. eauto.
Qed.

End StatisticsFacts.

(** X13. The start-up sequence holds together: on the concrete file system,
    right after a run of [setup_folders] that returned, [print_statistics]
    returns as well, and leaves the file system as it is. *)
Theorem statistics_after_setup
    (env : PosixFS.t -> PosixFS.t) home (w w1 : World PosixFS.t) :
  @setup_folders _ (PosixFS.os env) home w = Returned tt w1 ->
  exists w2,
    @print_statistics _ (PosixFS.os env) _ w1 = Returned tt w2 /\ fs w2 = fs w1.
Proof.
  intros Hrun. destruct (setup_folders_done env home w w1 Hrun) as [_ Hdirs].
  assert (Hall : forall platform, In platform PLATFORMS ->
            @countable _ (PosixFS.os env) _ platform (fs w1)).
  { intros platform Hp.
    split; apply StatisticsFacts.folder_count_dir.
    - apply (Hdirs (os_path.join DEST_BASE [platform; "images"])).
      + right. apply in_flat_map. exists platform. split; [done|by left].
      + unfold folder_chain. apply in_or_app. right. by left.
    - apply (Hdirs (os_path.join DEST_BASE [platform; "labels"])).
      + right. apply in_flat_map. exists platform. split; [done|by right; left].
      + unfold folder_chain. apply in_or_app. right. by left. }
  rewrite print_statistics_run.
  rewrite (@statistics_loop_counted _ (PosixFS.os env) _ PLATFORMS (O, O)) by done.
  eexists. split; reflexivity.
Qed.

Lemma statistics_after_setup_witness :
  let w := Samples.world_with "twitter_1_1.jpg" "img" in
  let w1 := final (@setup_folders _ (PosixFS.os id) "/home/offrk" w) in
  exists w2,
    @print_statistics _ (PosixFS.os id) _ w1 = Returned tt w2 /\ fs w2 = fs w1.
Proof.
  intros w w1. apply (statistics_after_setup id "/home/offrk" w w1).
  by_running_setup.
Defined.

(** ** [main] *)

(** X14. A failure at start-up is not caught: when [setup_folders] raises,
    [main] raises the same exception at once.  The statistics are not
    printed and no event is handed to the handler; the only system calls
    made are those of [setup_folders]. *)
Theorem main_stops_at_failed_setup {FS : Type} `{!OS FS} `{!OSListing FS}
    home (events : list FileSystemEvent) (w w1 : World FS) e :
  let w0 := mkWorld (fs w) (now w)
              (stdout w ++ [PyText.newline +:+ PyText.repeat_char "=" 60;
                            "SOCIAL MEDIA DATA COLLECTOR - FILE ORGANIZER";
                            PyText.repeat_char "=" 60 +:+ PyText.newline])
              (syscalls w) in
  setup_folders home w0 = Raised e w1 ->
  main home events w = Raised e w1
  /\ exists folders, syscalls w1 = syscalls w ++ map SysMakedirs folders.
Proof.
  intros w0 Hrun. split.
  - unfold main.
    rewrite bind_run, print_run, bind_run, print_run, bind_run, print_run, bind_run.
    cbn [fs now stdout syscalls]. rewrite <- !app_assoc. cbn [app].
    fold w0. by rewrite Hrun.
  - destruct (makedirs_in_turn (setup_targets home) (fs w0)) as [[r f'] called] eqn:Hturn.
    destruct (setup_folders_run home w0 r f' called Hturn) as (_ & Hcalls & _).
    rewrite Hrun in Hcalls. cbn [final] in Hcalls. by exists called.
Qed.

Lemma main_stops_at_failed_setup_witness :
  exists w1,
    @main _ PosixFS.quiet _ "/home/offrk" [Samples.arrival "twitter_1_1.jpg"]
      Samples.world_blocked
    = Raised (PosixFS.FileExistsError "C:/Users/offrk/Desktop/dataset/twitter/images") w1.
Proof.
  eexists.
  apply (@main_stops_at_failed_setup _ PosixFS.quiet _ "/home/offrk"
           [Samples.arrival "twitter_1_1.jpg"] Samples.world_blocked).
  vm_compute. reflexivity.
Defined.

(** ** More on disambiguated names and on the lines printed *)

Module StampFacts.

Lemma str_of_int_inj (t1 t2 : Z) : Py.str_of_int t1 = Py.str_of_int t2 -> t1 = t2.
Proof.
  unfold Py.str_of_int. intros Heq.
  assert (Hnorm : forall t,
            NilZero.int_of_string (NilZero.string_of_int (Z.to_int t)) = Some (Z.to_int t)).
  { intros t. apply NilZero.isi; destruct t as [|q|q]; cbn [Z.to_int];
      try discriminate; intros [= Hq]; by apply Unsigned.to_uint_nonnil in Hq. }
  apply DecimalZ.to_int_inj.
  pose proof (Hnorm t1) as H1. rewrite Heq, Hnorm in H1. congruence.
Qed.

End StampFacts.

(** X15. The disambiguated names of one filename for two different seconds
    differ: collisions that are a second or more apart never end on the same
    name. *)
Theorem dup_filename_differs (filename : string) (t1 t2 : Z) :
  t1 <> t2 -> dup_filename filename t1 <> dup_filename filename t2.
Proof.
  intros Hne Heq. apply Hne. unfold dup_filename in Heq.
  destruct (os_path.splitext filename) as [base ext].
  apply PyFacts.append_inv_head in Heq.
  apply PyFacts.append_inv_head in Heq.
  apply KeepFacts.append_inv_tail in Heq.
  by apply StampFacts.str_of_int_inj.
Qed.

Lemma dup_filename_differs_witness :
  dup_filename "reddit_1_1.txt" 1730912346 <> dup_filename "reddit_1_1.txt" 1730912347.
Proof.
  apply (dup_filename_differs "reddit_1_1.txt" 1730912346 1730912347). discriminate.
Defined.

(** X16. Every run of [process_file] prints one line, or two when it found
    the plain destination taken: then the first is the warning that the file
    already exists. *)
Theorem process_file_prints_one_or_two {FS : Type} `{!OS FS}
    filepath filename (w : World FS) :
  exists lines,
    stdout (final (process_file filepath filename w)) = stdout w ++ lines
    /\ (length lines = 1%nat
        \/ exists dest_path line, lines = ["File already exists: " +:+ dest_path; line]).
Proof.
  destruct (Nat.ltb_spec (length (parts_of filename)) 3) as [Hlt|Hge].
  { rewrite process_file_malformed by done. eexists. split; [reflexivity|by left]. }
  destruct (Py.In_list (platform_of filename) PLATFORMS) eqn:Hplat.
  2:{ rewrite process_file_unknown_platform by done.
      eexists. split; [reflexivity|by left]. }
  destruct (subfolder_of (extension_of filename)) as [sub|] eqn:Hsub.
  2:{ rewrite process_file_unknown_extension by done.
      eexists. split; [reflexivity|by left]. }
  rewrite (process_file_accepted _ _ sub) by done. cbn [final].
  unfold accepted_outcome. cbv zeta.
  destruct (os_makedirs _ (fs w)) as [[e|] f1]; cbn [stdout].
  { eexists. split; [reflexivity|by left]. }
  destruct (os_exists _ f1); destruct (os_move filepath _ f1) as [[e|] f2];
    cbn [stdout]; rewrite <- ?app_assoc, ?app_nil_r;
    (eexists; split; [reflexivity|]); cbn [app]; eauto.
Qed.
